(** * MNIST training / serving script (mxnet_mnist/mnist.py)

    A shallow embedding of the script's data flow: the dataset loader
    ([find_file], [load_data]), device selection
    ([get_training_context]), the graph ([build_graph]), the training
    driver ([train], [save]) and the request hook ([transform_fn]).

    Python integers are [Z]; byte strings are [list byte]; a numpy array
    is a shape together with its row-major data; exceptions are the
    [Raise] branch of [result]; calls into the framework are fields of
    the [MXNet] interface and leave a trace of events. *)

From Stdlib Require Import ZArith List Bool Lia.
From Stdlib.Strings Require Import String Ascii Byte.
From Stdlib Require Import SpecFloat.
Import ListNotations.
Open Scope string_scope.
Open Scope list_scope.
Open Scope Z_scope.

(** ** Exceptions and results *)

Inductive exn : Type :=
| TypeError (msg : string)
| GzipError
| StructError (msg : string)
| ValueError (msg : string)
| IndexError (msg : string)
| ZeroDivisionError
| UnboundLocalError (var : string)
| RuntimeError (msg : string)
| IOError (msg : string)
| MXNetError (msg : string).

Inductive result (A : Type) : Type :=
| Ok (a : A)
| Raise (e : exn).
Arguments Ok {A} a.
Arguments Raise {A} e.

Definition rbind {A B} (r : result A) (k : A -> result B) : result B :=
  match r with
  | Ok a => k a
  | Raise e => Raise e
  end.

Declare Scope result_scope.
Delimit Scope result_scope with result.
Notation "x <- c ; k" := (rbind c (fun x => k))
  (at level 61, c at next level, right associativity) : result_scope.
Notation "' pat <- c ; k" := (rbind c (fun x => match x with pat => k end))
  (at level 61, pat pattern, c at next level, right associativity) : result_scope.

(** ** Bytes and [struct.unpack] *)

Definition u8 (b : byte) : Z := Z.of_N (Byte.to_N b).

(** [dtype=np.int8]: the byte read as a two's-complement integer. *)
Definition i8 (b : byte) : Z :=
  if u8 b <? 128 then u8 b else u8 b - 256.

(** One big-endian unsigned 32-bit field ([">I"]). *)
Definition be32 (b3 b2 b1 b0 : byte) : Z :=
  Z.lor (Z.shiftl (u8 b3) 24)
    (Z.lor (Z.shiftl (u8 b2) 16) (Z.lor (Z.shiftl (u8 b1) 8) (u8 b0))).

(** [struct.unpack(">II", buf)]: the buffer must hold exactly 8 bytes. *)
Definition unpack_II (buf : list byte) : result (Z * Z) :=
  match buf with
  | [a3; a2; a1; a0; b3; b2; b1; b0] =>
      Ok (be32 a3 a2 a1 a0, be32 b3 b2 b1 b0)
  | _ => Raise (StructError "unpack requires a buffer of 8 bytes")
  end.

(** [struct.unpack(">IIII", buf)]: the buffer must hold exactly 16 bytes. *)
Definition unpack_IIII (buf : list byte) : result (Z * Z * Z * Z) :=
  match buf with
  | [a3; a2; a1; a0; b3; b2; b1; b0; c3; c2; c1; c0; d3; d2; d1; d0] =>
      Ok (be32 a3 a2 a1 a0, be32 b3 b2 b1 b0,
          be32 c3 c2 c1 c0, be32 d3 d2 d1 d0)
  | _ => Raise (StructError "unpack requires a buffer of 16 bytes")
  end.

(** ** float32

    IEEE binary32 values, with the operations of [SpecFloat] at
    precision 24 and maximal exponent 128 (round to nearest even). *)

Definition float32 : Type := spec_float.
Definition f32_prec : Z := 24.
Definition f32_emax : Z := 128.

(** Conversion of an integer to float32 ([astype(np.float32)]). *)
Definition f32_of_Z (z : Z) : float32 :=
  binary_normalize f32_prec f32_emax (Z.abs z) 0 (z <? 0).

Definition f32_div (x y : float32) : float32 := SFdiv f32_prec f32_emax x y.
Definition f32_leb (x y : float32) : bool := SFleb x y.

Definition f32_zero : float32 := S754_zero false.
Definition f32_one : float32 := f32_of_Z 1.

(** ** numpy arrays *)

Record ndarray (A : Type) : Type := mk_ndarray {
  shape : list Z;
  data : list A
}.
Arguments mk_ndarray {A} shape data.
Arguments shape {A} n.
Arguments data {A} n.

Definition prod_dims (dims : list Z) : Z := fold_right Z.mul 1 dims.

Definition size {A} (a : ndarray A) : Z := Z.of_nat (List.length (data a)).

(** [np.fromstring(s, dtype)] for a one-byte dtype: a 1-d array. *)
Definition fromstring {A} (dtype : byte -> A) (s : list byte) : ndarray A :=
  mk_ndarray [Z.of_nat (List.length s)] (map dtype s).

(** The largest [npy_intp] (a 64-bit platform). *)
Definition npy_intp_max : Z := 2 ^ 63 - 1.

(** Multiplication of sizes in [npy_intp], left to right from [acc];
    [None] when a product overflows. *)
Fixpoint mul_sizes (acc : Z) (dims : list Z) : option Z :=
  match dims with
  | [] => Some acc
  | d :: rest =>
      if acc * d <=? npy_intp_max then mul_sizes (acc * d) rest else None
  end.

Definition nonzero_dims (dims : list Z) : list Z :=
  filter (fun d => negb (d =? 0)) dims.

(** [a.reshape(dims)] for non-negative [dims] and items of [itemsize]
    bytes: the element count must be preserved.  numpy multiplies the
    dimensions in [npy_intp] and, when it builds the result, refuses a
    shape whose non-zero dimensions amount to more than [npy_intp_max]
    bytes.  For a shape without a zero dimension these products are
    bounded by the size of [a], an array held in memory, so that the two
    overflow tests are live for an empty shape only. *)
Definition reshape {A} (itemsize : Z) (a : ndarray A) (dims : list Z)
  : result (ndarray A) :=
  if existsb (Z.eqb 0) dims
  then match mul_sizes 1 dims with
       | Some s_known =>
           if s_known =? size a
           then match mul_sizes itemsize (nonzero_dims dims) with
                | Some _ => Ok (mk_ndarray dims (data a))
                | None => Raise (ValueError "array is too big")
                end
           else Raise (ValueError "cannot reshape array")
       | None => Raise (ValueError "cannot reshape array")
       end
  else if prod_dims dims =? size a
       then Ok (mk_ndarray dims (data a))
       else Raise (ValueError "cannot reshape array").

(** [len(a)]: the leading dimension; a 0-d array has no length. *)
Definition len {A} (a : ndarray A) : result Z :=
  match shape a with
  | n :: _ => Ok n
  | [] => Raise (TypeError "len() of unsized object")
  end.

(** [a.shape[0]]. *)
Definition shape0 {A} (a : ndarray A) : result Z :=
  match shape a with
  | n :: _ => Ok n
  | [] => Raise (IndexError "tuple index out of range")
  end.

(** [a.astype(np.float32)] on an integer array. *)
Definition astype_float32 (a : ndarray Z) : ndarray float32 :=
  mk_ndarray (shape a) (map f32_of_Z (data a)).

(** [a / k] on a float32 array and a Python integer [k]. *)
Definition div_scalar (a : ndarray float32) (k : Z) : ndarray float32 :=
  mk_ndarray (shape a) (map (fun x => f32_div x (f32_of_Z k)) (data a)).

(** ** File system and [os.walk]

    A path is the sequence of its components, so that
    [os.path.join(root, name)] appends one component.  An entry of a
    directory is a regular file that can be read, a directory that can
    be listed, an entry that is not a directory and cannot be opened for
    reading (a broken link, a socket, a file without read permission),
    or a directory that [os.walk] does not list (one without permission,
    whose error the walk ignores, or a symbolic link to a directory,
    which it does not follow). *)

Definition path : Type := list string.

Inductive node : Type :=
| File (content : list byte)
| Dir (entries : list (string * node))
| Unreadable
| Unlisted.

Definition os_path_join (root : path) (name : string) : path := root ++ [name].

Definition lookup_entry (name : string) (entries : list (string * node))
  : option node :=
  option_map snd (find (fun e => String.eqb (fst e) name) entries).

Fixpoint resolve (n : node) (p : path) : option node :=
  match p with
  | [] => Some n
  | c :: p' =>
      match n with
      | Dir entries =>
          match lookup_entry c entries with
          | Some child => resolve child p'
          | None => None
          end
      | _ => None
      end
  end.

(** What [os.walk] takes for a directory; every other entry goes to the
    list of files. *)
Definition is_dir (n : node) : bool :=
  match n with
  | Dir _ | Unlisted => true
  | File _ | Unreadable => false
  end.

Definition dirnames (entries : list (string * node)) : list string :=
  map fst (filter (fun e => is_dir (snd e)) entries).

Definition filenames (entries : list (string * node)) : list string :=
  map fst (filter (fun e => negb (is_dir (snd e))) entries).

(** [os.walk(top)], top-down: the triple of [top] first, then the walk of
    each sub-directory in listing order.  Walking something that is not a
    directory, or a directory that is not listed, yields nothing. *)
Fixpoint walk (top : path) (n : node)
  : list (path * list string * list string) :=
  match n with
  | Dir entries =>
      (top, dirnames entries, filenames entries)
        :: flat_map (fun e => walk (os_path_join top (fst e)) (snd e)) entries
  | _ => []
  end.

Definition os_walk (fs : node) (top : path)
  : list (path * list string * list string) :=
  match resolve fs top with
  | Some n => walk top n
  | None => []
  end.

(** [file_name in files]. *)
Definition str_in (s : string) (l : list string) : bool :=
  existsb (String.eqb s) l.

(** The loop of [find_file] over the walk; falling off its end returns
    [None]. *)
Fixpoint find_file_loop (w : list (path * list string * list string))
  (file_name : string) : option path :=
  match w with
  | [] => None
  | (root, _, files) :: rest =>
      if str_in file_name files
      then Some (os_path_join root file_name)
      else find_file_loop rest file_name
  end.

Definition find_file (fs : node) (root_path : path) (file_name : string)
  : option path :=
  find_file_loop (os_walk fs root_path) file_name.

(** ** [load_data] *)

Section Loader.

(** Decompression of a gzip stream; [None] when the bytes are not one. *)
Variable gunzip : list byte -> option (list byte).

(** [gzip.open(p)] followed by the reads of the [with] block: the
    decompressed content.  [gzip.open(None)] is a [TypeError]; a path
    that names no readable regular file gives the error of the operating
    system. *)
Definition gzip_open (fs : node) (p : option path) : result (list byte) :=
  match p with
  | None => Raise (TypeError "filename must be a str or bytes object, or a file")
  | Some q =>
      match resolve fs q with
      | Some (File raw) =>
          match gunzip raw with
          | Some s => Ok s
          | None => Raise GzipError
          end
      | _ => Raise (IOError "cannot open")
      end
  end.

Definition load_data (fs : node) (p : path)
  : result (ndarray Z * ndarray float32) :=
  (flbl <- gzip_open fs (find_file fs p "labels.gz");
   _ <- unpack_II (firstn 8 flbl);
   let labels := fromstring i8 (skipn 8 flbl) in
   fimg <- gzip_open fs (find_file fs p "images.gz");
   '(_, _, rows, cols) <- unpack_IIII (firstn 16 fimg);
   let pixels := fromstring u8 (skipn 16 fimg) in
   n <- len labels;
   images <- reshape 1 pixels [n; rows; cols];
   n0 <- shape0 images;
   images <- reshape 1 images [n0; 1; 28; 28];
   Ok (labels, div_scalar (astype_float32 images) 255))%result.

End Loader.

(** ** The network and the device contexts *)

Inductive symbol : Type :=
| SymVar (name : string)
| SymFlatten (d : symbol)
| SymFullyConnected (d : symbol) (num_hidden : Z)
| SymActivation (d : symbol) (act_type : string)
| SymSoftmaxOutput (d : symbol) (name : string).

Definition build_graph : symbol :=
  let data := SymVar "data" in
  let data := SymFlatten data in
  let fc1 := SymFullyConnected data 128 in
  let act1 := SymActivation fc1 "relu" in
  let fc2 := SymFullyConnected act1 64 in
  let act2 := SymActivation fc2 "relu" in
  let fc3 := SymFullyConnected act2 10 in
  SymSoftmaxOutput fc3 "softmax".

(** [mx.cpu()] and [mx.gpu(i)]. *)
Inductive context : Type :=
| cpu
| gpu (i : Z).

(** What [get_training_context] hands to the module: one context, or a
    list of contexts. *)
Inductive context_arg : Type :=
| OneContext (c : context)
| ContextList (l : list context).

(** [range(n)]: empty when [n <= 0]. *)
Definition range (n : Z) : list Z := map Z.of_nat (seq 0 (Z.to_nat n)).

(** Truth value of a Python integer. *)
Definition truthy (n : Z) : bool := negb (n =? 0).

Definition get_training_context (num_gpus : Z) : context_arg :=
  if truthy num_gpus
  then ContextList (map gpu (range num_gpus))
  else OneContext cpu.

(** ** Slicing and the shard selection *)

(** A slice bound against a length [n], as [slice.indices] does. *)
Definition slice_index (i n : Z) : Z :=
  if i <? 0 then Z.max (i + n) 0 else Z.min i n.

(** [a[start:stop]] along the first axis. *)
Definition nd_slice {A} (a : ndarray A) (start stop : Z) : result (ndarray A) :=
  match shape a with
  | [] => Raise (IndexError "too many indices for array")
  | n :: rest =>
      let lo := slice_index start n in
      let hi := slice_index stop n in
      let m := Z.max (hi - lo) 0 in
      let r := prod_dims rest in
      Ok (mk_ndarray (m :: rest)
            (firstn (Z.to_nat (m * r)) (skipn (Z.to_nat (lo * r)) (data a))))
  end.

(** [a // b] on Python integers. *)
Definition floordiv (a b : Z) : result Z :=
  if b =? 0 then Raise ZeroDivisionError else Ok (a / b).

(** [enumerate(l)]. *)
Fixpoint enumerate_from {A} (i : Z) (l : list A) : list (Z * A) :=
  match l with
  | [] => []
  | x :: l' => (i, x) :: enumerate_from (i + 1) l'
  end.

Definition enumerate {A} (l : list A) : list (Z * A) := enumerate_from 0 l.

(** The [for i, host in enumerate(hosts)] loop of [train]: the bindings of
    [start] and [end] on leaving it, [None] when the loop body never
    assigned them. *)
Fixpoint shard_loop (shard_size : Z) (ihosts : list (Z * string))
  (current_host : string) : option (Z * Z) :=
  match ihosts with
  | [] => None
  | (i, host) :: rest =>
      if String.eqb host current_host
      then let start := shard_size * i in
           let stop := start + shard_size in
           Some (start, stop)
      else shard_loop shard_size rest current_host
  end.

(** Reading a local variable that may not have been assigned. *)
Definition read_local {A} (name : string) (v : option A) : result A :=
  match v with
  | Some x => Ok x
  | None => Raise (UnboundLocalError name)
  end.

(** [l[0]]. *)
Definition first_item {A} (l : list A) : result A :=
  match l with
  | x :: _ => Ok x
  | [] => Raise (IndexError "list index out of range")
  end.

(** ** State and exceptions *)

Definition M (S A : Type) : Type := S -> result A * S.

Definition ret {S A} (a : A) : M S A := fun s => (Ok a, s).

Definition bind {S A B} (c : M S A) (k : A -> M S B) : M S B :=
  fun s =>
    match c s with
    | (Ok a, s') => k a s'
    | (Raise e, s') => (Raise e, s')
    end.

Definition raise {S A} (e : exn) : M S A := fun s => (Raise e, s).

Definition lift {S A} (r : result A) : M S A := fun s => (r, s).

Definition get {S} : M S S := fun s => (Ok s, s).

Definition modify {S} (f : S -> S) : M S unit := fun s => (Ok tt, f s).

Declare Scope monad_scope.
Delimit Scope monad_scope with monad.
Notation "x <- c ;; k" := (bind c (fun x => k))
  (at level 61, c at next level, right associativity) : monad_scope.
Notation "' pat <- c ;; k" := (bind c (fun x => match x with pat => k end))
  (at level 61, pat pattern, c at next level, right associativity) : monad_scope.
Notation "c ;; k" := (bind c (fun _ => k))
  (at level 61, right associativity) : monad_scope.

(** ** The framework *)

(** Arguments of [Module.fit] as [train] passes them. *)
Record fit_args (LR : Type) : Type := mk_fit_args {
  fa_kvstore : string;
  fa_optimizer : string;
  fa_learning_rate : LR;
  fa_eval_metric : string;
  fa_speedometer : Z * Z;
  fa_num_epoch : Z
}.
Arguments mk_fit_args {LR}.

(** What the script uses of mxnet and numpy, as an interface.  A call is a
    function of its arguments that returns or raises; the script's own
    view of the world (the files it writes, the state of the model handle
    it is given, the order of its calls) is kept in the state of [M]. *)
Record MXNet : Type := {
  learning_rate_t : Type;
  data_iter : Type;
  module : Type;
  tensor : Type;
  scalar : Type;
  (* training *)
  NDArrayIter : ndarray float32 -> ndarray Z -> Z -> bool -> result data_iter;
  Module_new : symbol -> context_arg -> result module;
  Module_fit : module -> data_iter -> data_iter -> fit_args learning_rate_t
               -> result module;
  Module_symbol : module -> symbol;
  Module_data_shapes : module -> list (string * list Z);
  (* serving *)
  np_load : list byte -> result tensor;
  nd_array : tensor -> result tensor;
  Module_forward : module -> tensor -> result module;
  Module_get_outputs : module -> result (list tensor);
  np_squeeze : tensor -> tensor;
  np_max : tensor -> result scalar;
  np_sub : tensor -> scalar -> tensor;
  np_exp : tensor -> tensor;
  np_sum : tensor -> scalar;
  np_div : tensor -> scalar -> tensor;
  json_dumps_tolist : tensor -> string
}.

Section Script.

Variable gunzip : list byte -> option (list byte).
(** Whether a file can be created at a path. *)
Variable writable : path -> bool.
Variable mx : MXNet.

(** *** Training *)

(** Content of a file written by [save]. *)
Inductive artifact : Type :=
| SymbolJson (s : symbol)
| ParamsFile (m : module mx)
| ShapesJson (signature : list (string * list Z)).

(** Calls of [train] that act outside the function, with their
    arguments. *)
Inductive event : Type :=
| EvNDArrayIter (d : ndarray float32) (l : ndarray Z) (batch_size : Z)
    (shuffle : bool)
| EvSetLevel (level : string)
| EvModule (s : symbol) (c : context_arg)
| EvFit (m : module mx) (train_data eval_data : data_iter mx)
    (a : fit_args (learning_rate_t mx))
| EvWrite (p : path) (a : artifact).

Definition emit (e : event) : M (list event) unit :=
  modify (fun t => t ++ [e]).

(** A call into the framework: it is recorded with its arguments, then
    it returns or raises. *)
Definition call {A} (e : event) (r : result A) : M (list event) A :=
  (emit e;; lift r)%monad.

(** [mx.io.NDArrayIter(d, l, batch_size, shuffle=shuffle)]. *)
Definition mx_io_NDArrayIter (d : ndarray float32) (l : ndarray Z)
  (batch_size : Z) (shuffle : bool) : M (list event) (data_iter mx) :=
  call (EvNDArrayIter d l batch_size shuffle)
    (NDArrayIter mx d l batch_size shuffle).

(** [mx.mod.Module(symbol=s, context=c)]. *)
Definition mx_mod_Module (s : symbol) (c : context_arg)
  : M (list event) (module mx) :=
  call (EvModule s c) (Module_new mx s c).

(** [m.fit(train_data, eval_data=eval_data, ...)]; the fitted module. *)
Definition fit (m : module mx) (train_data eval_data : data_iter mx)
  (a : fit_args (learning_rate_t mx)) : M (list event) (module mx) :=
  call (EvFit m train_data eval_data a)
    (Module_fit mx m train_data eval_data a).

(** The writing of a file, which raises [e] where the file cannot be
    created. *)
Definition write_file (p : path) (a : artifact) (e : exn)
  : M (list event) unit :=
  if writable p then emit (EvWrite p a) else raise e.

(** [Symbol.save] and [Module.save_params] fail with the framework's
    error, [open(..., 'w')] with the one of the operating system. *)
Definition save (model_dir : path) (model : module mx) : M (list event) unit :=
  (write_file (os_path_join model_dir "model-symbol.json")
     (SymbolJson (Module_symbol mx model))
     (MXNetError "cannot write the symbol");;
   write_file (os_path_join model_dir "model-0000.params") (ParamsFile model)
     (MXNetError "cannot write the parameters");;
   let signature :=
     map (fun data_desc => (fst data_desc, map (fun dim => dim) (snd data_desc)))
       (Module_data_shapes mx model) in
   write_file (os_path_join model_dir "model-shapes.json")
     (ShapesJson signature) (IOError "cannot open for writing"))%monad.

Definition train (fs : node) (batch_size epochs : Z)
  (learning_rate : learning_rate_t mx) (num_gpus : Z)
  (training_channel testing_channel : path)
  (hosts : list string) (current_host : string) (model_dir : path)
  : M (list event) unit :=
  ('(train_labels, train_images) <- lift (load_data gunzip fs training_channel);;
   '(test_labels, test_images) <- lift (load_data gunzip fs testing_channel);;
   n <- lift (len train_images);;
   shard_size <- lift (floordiv n (Z.of_nat (List.length hosts)));;
   let bounds := shard_loop shard_size (enumerate hosts) current_host in
   start <- lift (read_local "start" (option_map fst bounds));;
   stop <- lift (read_local "end" (option_map snd bounds));;
   shard_images <- lift (nd_slice train_images start stop);;
   shard_labels <- lift (nd_slice train_labels start stop);;
   train_iter <- mx_io_NDArrayIter shard_images shard_labels batch_size true;;
   val_iter <- mx_io_NDArrayIter test_images test_labels batch_size false;;
   emit (EvSetLevel "DEBUG");;
   let kvstore :=
     if Z.of_nat (List.length hosts) =? 1 then "local" else "dist_sync" in
   mlp_model <- mx_mod_Module build_graph (get_training_context num_gpus);;
   mlp_model <- fit mlp_model train_iter val_iter
                  (mk_fit_args kvstore "sgd" learning_rate "acc"
                     (batch_size, 100) epochs);;
   h0 <- lift (first_item hosts);;
   if String.eqb current_host h0
   then save model_dir mlp_model
   else ret tt)%monad.

(** *** Serving *)

(** Calls of [transform_fn] that act outside the function. *)
Inductive sevent : Type :=
| SvLogInfo (msg : string)
| SvNpLoad (payload : list byte)
| SvForward (input : tensor mx)
| SvGetOutputs.

(** The state a request runs against: the state of the object that the
    argument [mod] refers to, and the calls made so far. *)
Record serving : Type := mk_serving {
  handle : module mx;
  calls : list sevent
}.

Definition called (e : sevent) : M serving unit :=
  modify (fun s => mk_serving (handle s) (calls s ++ [e])).

Definition forward (input : tensor mx) : M serving unit :=
  (called (SvForward input);;
   s <- get;;
   m <- lift (Module_forward mx (handle s) input);;
   modify (fun s => mk_serving m (calls s)))%monad.

Definition get_outputs : M serving (list (tensor mx)) :=
  (called SvGetOutputs;;
   s <- get;;
   lift (Module_get_outputs mx (handle s)))%monad.

Definition transform_fn (payload : list byte)
  (input_content_type output_content_type : string)
  : M serving (string * string) :=
  (called (SvLogInfo "Invoking user-defined transform_fn");;
   let ctx := cpu in
   if negb (String.eqb input_content_type "application/x-npy")
   then raise (RuntimeError "Input content type must be application/x-npy")
   else
     (* pre-processing *)
     called (SvNpLoad payload);;
     npy_payload <- lift (np_load mx payload);;
     mx_ndarray <- lift (nd_array mx npy_payload);;
     let inference_payload := mx_ndarray in
     (* prediction/inference *)
     forward inference_payload;;
     (* post-processing *)
     outs <- get_outputs;;
     result <- lift (first_item outs);;
     let result := np_squeeze mx result in
     mx_val <- lift (np_max mx result);;
     let result_exp := np_exp mx (np_sub mx result mx_val) in
     let result := np_div mx result_exp (np_sum mx result_exp) in
     let output_json := json_dumps_tolist mx result in
     let output_content_type := "application/json" in
     ret (output_json, output_content_type))%monad.

End Script.

(** ** Sample environments

    A small file system with a two-image dataset, and an instance of the
    framework interface, on which the script can be run. *)

(** A decoder for files stored without compression. *)
Definition stored (raw : list byte) : option (list byte) := Some raw.

Definition sample_labels : list byte :=
  [x00; x00; x08; x01; x00; x00; x00; x02; x07; xfd].

Definition sample_images : list byte :=
  [x00; x00; x08; x03; x00; x00; x00; x02;
   x00; x00; x00; x1c; x00; x00; x00; x1c]
    ++ repeat x00 784%nat ++ repeat xff 784%nat.

Definition sample_fs : node :=
  Dir [("train", Dir [("labels.gz", File sample_labels);
                      ("images.gz", File sample_images)]);
       ("test", Dir [("mnist", Dir [("images.gz", File sample_images);
                                    ("labels.gz", File sample_labels)])]);
       ("validation", Dir [])].

(** A labels file cut short inside its header, and no images file. *)
Definition truncated_fs : node :=
  Dir [("train", Dir [("labels.gz", File [x00; x00; x08])])].


Definition sample_mx : MXNet := {|
  learning_rate_t := Z;
  data_iter := ndarray float32 * ndarray Z;
  module := nat;
  tensor := list Z;
  scalar := Z;
  NDArrayIter := fun d l _ _ => Ok (d, l);
  Module_new := fun _ _ => Ok 0%nat;
  Module_fit := fun m _ _ _ => Ok m;
  Module_symbol := fun _ => build_graph;
  Module_data_shapes := fun _ => [("data", [100; 1; 28; 28])];
  np_load := fun payload => Ok (map u8 payload);
  nd_array := fun t => Ok t;
  Module_forward := fun m _ => Ok (S m);
  Module_get_outputs := fun _ => Ok [[1; 2; 3]];
  np_squeeze := fun t => t;
  np_max := fun t =>
    match t with
    | [] => Raise (ValueError "zero-size array to reduction operation")
    | x :: r => Ok (fold_right Z.max x r)
    end;
  np_sub := fun t s => map (fun x => x - s) t;
  np_exp := fun t => t;
  np_sum := fun t => fold_right Z.add 0 t;
  np_div := fun t s => map (fun x => x / s) t;
  json_dumps_tolist := fun _ => "[]"
|}.

Definition always_writable (p : path) : bool := true.

(** A pixel of the loaded images: the byte as float32, divided by 255. *)
Definition pixel (b : byte) : float32 :=
  f32_div (f32_of_Z (u8 b)) (f32_of_Z 255).

Definition in_unit_interval (x : float32) : bool :=
  f32_leb f32_zero x && f32_leb x f32_one.

(** The arrays that [load_data] reads from the sample dataset. *)
Definition sample_label_array : ndarray Z := mk_ndarray [2] [7; -3].

Definition sample_image_array : ndarray float32 :=
  mk_ndarray [2; 1; 28; 28]
    (map pixel (repeat x00 784%nat ++ repeat xff 784%nat)).

(** A run of [train] on the sample environment. *)
Definition sample_run (hosts : list string) (current_host : string)
  : M (list (event sample_mx)) unit :=
  train stored always_writable sample_mx sample_fs 100 10 1 0
    ["train"] ["test"] hosts current_host ["model"].

(** ** Observations on a trace *)

(** The paths of the files written, in order. *)
Fixpoint written {mx : MXNet} (t : list (event mx)) : list path :=
  match t with
  | [] => []
  | EvWrite _ p _ :: t' => p :: written t'
  | _ :: t' => written t'
  end.

(** The three files of a saved model. *)
Definition model_files (model_dir : path) : list path :=
  [os_path_join model_dir "model-symbol.json";
   os_path_join model_dir "model-0000.params";
   os_path_join model_dir "model-shapes.json"].

(** Whether [current_host] is the first entry of [hosts]. *)
Definition is_leader (hosts : list string) (current_host : string) : bool :=
  match hosts with
  | h0 :: _ => String.eqb current_host h0
  | [] => false
  end.

(** ** Relating the states before and after a run *)

(** Every run of [c] takes a state to one related to it by [R]. *)
Definition respects {S A} (R : S -> S -> Prop) (c : M S A) : Prop :=
  forall s r s', c s = (r, s') -> R s s'.

(** The trace only grows. *)
Definition extends {X} (t t' : list X) : Prop := exists rest, t' = t ++ rest.

(** No file is written. *)
Definition same_written {mx : MXNet} (t t' : list (event mx)) : Prop :=
  written t' = written t.

(** The files written by a run of [c] are a list [w] that is [W] when the
    run returns, and is empty when [W] is. *)
Definition writes {mx : MXNet} {A} (c : M (list (event mx)) A)
  (W : list path) : Prop :=
  forall t r t',
    c t = (r, t') ->
    exists w, written t' = written t ++ w
              /\ (forall a, r = Ok a -> w = W)
              /\ (W = [] -> w = []).

(** The sample dataset again, in one directory, with other magic numbers
    and declared counts in the two headers. *)
Definition odd_header_fs : node :=
  Dir [("images.gz",
        File ([xff; xff; xff; xff; x00; x00; x00; x63;
               x00; x00; x00; x1c; x00; x00; x00; x1c]
                ++ repeat x00 784%nat ++ repeat xff 784%nat));
       ("labels.gz",
        File [x00; x00; x00; x00; x00; x00; x00; x09; x07; xfd])].

(** A framework whose deserializer rejects an empty payload and whose
    module has no output. *)
Definition picky_mx : MXNet := {|
  learning_rate_t := Z;
  data_iter := ndarray float32 * ndarray Z;
  module := nat;
  tensor := list Z;
  scalar := Z;
  NDArrayIter := fun d l _ _ => Ok (d, l);
  Module_new := fun _ _ => Ok 0%nat;
  Module_fit := fun m _ _ _ => Ok m;
  Module_symbol := fun _ => build_graph;
  Module_data_shapes := fun _ => [("data", [100; 1; 28; 28])];
  np_load := fun payload =>
    match payload with
    | [] => Raise (ValueError "cannot load an empty payload")
    | _ => Ok (map u8 payload)
    end;
  nd_array := fun t => Ok t;
  Module_forward := fun m _ => Ok (S m);
  Module_get_outputs := fun _ => Ok [];
  np_squeeze := fun t => t;
  np_max := fun t =>
    match t with
    | [] => Raise (ValueError "zero-size array to reduction operation")
    | x :: r => Ok (fold_right Z.max x r)
    end;
  np_sub := fun t s => map (fun x => x - s) t;
  np_exp := fun t => t;
  np_sum := fun t => fold_right Z.add 0 t;
  np_div := fun t s => map (fun x => x / s) t;
  json_dumps_tolist := fun _ => "[]"
|}.

(** Only the first of the model files can be written. *)
Definition symbol_file_only (p : path) : bool :=
  match p with
  | [_; name] => String.eqb name "model-symbol.json"
  | _ => false
  end.

(** ** Start-up: [parse_args] *)

(** Exceptions of the start-up code. *)
Inductive startup_exn : Type :=
| KeyError (key : string)
| JSONDecodeError (doc : string)
| SystemExit (status : Z).

Inductive startup (A : Type) : Type :=
| Started (a : A)
| Aborted (e : startup_exn).
Arguments Started {A} a.
Arguments Aborted {A} e.

Definition sbind {A B} (c : startup A) (k : A -> startup B) : startup B :=
  match c with
  | Started a => k a
  | Aborted e => Aborted e
  end.

Declare Scope startup_scope.
Delimit Scope startup_scope with startup.
Notation "x <- c ; k" := (sbind c (fun x => k))
  (at level 61, c at next level, right associativity) : startup_scope.

(** [os.environ[key]]. *)
Definition environ_get (environ : string -> option string) (key : string)
  : startup string :=
  match environ key with
  | Some v => Started v
  | None => Aborted (KeyError key)
  end.

(** The [type] of an argument. *)
Inductive arg_type : Type := TInt | TFloat | TStr | TList.

(** The [default] of an argument; a float by its literal. *)
Inductive default_value (J : Type) : Type :=
| DInt (z : Z)
| DFloat (literal : string)
| DStr (s : string)
| DJson (j : J).
Arguments DInt {J} z.
Arguments DFloat {J} literal.
Arguments DStr {J} s.
Arguments DJson {J} j.

(** One [add_argument] call. *)
Record argument (J : Type) : Type := mk_argument {
  arg_flag : string;
  arg_kind : arg_type;
  arg_default : default_value J
}.
Arguments mk_argument {J}.

(** The environment variables that [parse_args] reads, in the order in
    which it reads them. *)
Definition required_variables : list string :=
  ["SM_MODEL_DIR"; "SM_CHANNEL_TRAIN"; "SM_CHANNEL_TEST";
   "SM_CURRENT_HOST"; "SM_HOSTS"].

Definition unset (environ : string -> option string) (key : string) : bool :=
  match environ key with
  | Some _ => false
  | None => true
  end.

Section StartUp.

(** JSON values and [json.loads]; [None] when the text is not JSON. *)
Variable J : Type.
Variable json_loads : string -> option J.

(** The namespace and [ArgumentParser.parse_args] on the declared
    arguments and the command line. *)
Variable namespace : Type.
Variable ArgumentParser_parse_args :
  list (argument J) -> list string -> startup namespace.

Definition parse_args (environ : string -> option string)
  (argv : list string) : startup namespace :=
  (model_dir <- environ_get environ "SM_MODEL_DIR";
   train_dir <- environ_get environ "SM_CHANNEL_TRAIN";
   test_dir <- environ_get environ "SM_CHANNEL_TEST";
   current_host <- environ_get environ "SM_CURRENT_HOST";
   hosts_doc <- environ_get environ "SM_HOSTS";
   hosts <- match json_loads hosts_doc with
            | Some j => Started j
            | None => Aborted (JSONDecodeError hosts_doc)
            end;
   ArgumentParser_parse_args
     [mk_argument "--batch-size" TInt (DInt 100);
      mk_argument "--epochs" TInt (DInt 10);
      mk_argument "--learning-rate" TFloat (DFloat "0.1");
      mk_argument "--model-dir" TStr (DStr model_dir);
      mk_argument "--train" TStr (DStr train_dir);
      mk_argument "--test" TStr (DStr test_dir);
      mk_argument "--current-host" TStr (DStr current_host);
      mk_argument "--hosts" TList (DJson hosts)]
     argv)%startup.

End StartUp.

(** An environment that sets the model directory only. *)
Definition model_dir_only (key : string) : option string :=
  if String.eqb key "SM_MODEL_DIR" then Some "/opt/ml/model" else None.

(** An environment that sets all five variables, the host list not being
    JSON. *)
Definition bad_hosts_environ (key : string) : option string :=
  if String.eqb key "SM_HOSTS" then Some "algo-1,algo-2" else Some "x".

(** ** Well-formed data *)

(** An array whose dimensions are non-negative and whose data has as many
    elements as its shape announces. *)
Definition well_shaped {A} (a : ndarray A) : Prop :=
  Forall (fun d => 0 <= d) (shape a) /\ prod_dims (shape a) = size a.


(** The longest prefix of a list whose elements all pass a test. *)
Fixpoint take_while {A} (f : A -> bool) (l : list A) : list A :=
  match l with
  | [] => []
  | x :: l' => if f x then x :: take_while f l' else []
  end.

(** The files written by a run of [c] are the first few of [W], in
    order. *)
Definition writes_within {mx : MXNet} {A} (c : M (list (event mx)) A)
  (W : list path) : Prop :=
  forall t r t',
    c t = (r, t') ->
    exists w rest, written t' = written t ++ w /\ W = w ++ rest.

(** * Properties *)

(** ** Device selection *)

Lemma range_length (n : Z) : List.length (range n) = Z.to_nat n.
Proof. unfold range. now rewrite length_map, length_seq. Qed.

Lemma range_nth (n k : Z) :
  0 <= k < n -> nth_error (range n) (Z.to_nat k) = Some k.
Proof.
  intros Hk. unfold range.
  rewrite nth_error_map, nth_error_seq.
  destruct (Nat.ltb_spec (Z.to_nat k) (Z.to_nat n)) as [_|Hge]; [|lia].
  simpl. f_equal. lia.
Qed.

(** C8 (as the code has it): a positive count gives one GPU context per
    index 0..count-1, in order; zero gives the single CPU context; a
    negative count is truthy and gives an empty list of contexts. *)
Theorem get_training_context_by_sign (num_gpus : Z) :
  (0 < num_gpus ->
     get_training_context num_gpus = ContextList (map gpu (range num_gpus))
     /\ Z.of_nat (List.length (range num_gpus)) = num_gpus
     /\ forall k, 0 <= k < num_gpus ->
          nth_error (range num_gpus) (Z.to_nat k) = Some k)
  /\ (num_gpus = 0 -> get_training_context num_gpus = OneContext cpu)
  /\ (num_gpus < 0 -> get_training_context num_gpus = ContextList []).
Proof.
  unfold get_training_context, truthy. repeat split.
  - destruct (Z.eqb_spec num_gpus 0); [lia | reflexivity].
  - rewrite range_length. lia.
  - apply range_nth.
  - intros ->. reflexivity.
  - intros Hneg. destruct (Z.eqb_spec num_gpus 0); [lia|]. simpl.
    unfold range. replace (Z.to_nat num_gpus) with 0%nat by lia. reflexivity.
Qed.

Lemma get_training_context_by_sign_witness :
  get_training_context 2 = ContextList [gpu 0; gpu 1]
  /\ get_training_context 0 = OneContext cpu
  /\ get_training_context (-3) = ContextList [].
Proof.
  destruct (get_training_context_by_sign 2) as [Hpos _].
  destruct (get_training_context_by_sign 0) as [_ [Hzero _]].
  destruct (get_training_context_by_sign (-3)) as [_ [_ Hneg]].
  split; [| split].
  - destruct Hpos as [H _]; [lia | exact H].
  - apply Hzero. reflexivity.
  - apply Hneg. lia.
Defined.

(** C8 fails as stated: the count -1 is not positive, yet the result is
    an empty list of contexts and not the CPU context. *)
Lemma get_training_context_negative_not_cpu :
  get_training_context (-1) = ContextList []
  /\ get_training_context (-1) <> OneContext cpu.
Proof. split; [reflexivity | discriminate]. Qed.

(** ** The dataset loader *)

Lemma firstn_app_exact {A} (l1 l2 : list A) (n : nat) :
  List.length l1 = n -> firstn n (l1 ++ l2) = l1.
Proof.
  intros <-. induction l1 as [|x l1 IH]; simpl.
  - now destruct l2.
  - now rewrite IH.
Qed.

Lemma skipn_app_exact {A} (l1 l2 : list A) (n : nat) :
  List.length l1 = n -> skipn n (l1 ++ l2) = l2.
Proof. intros <-. induction l1 as [|x l1 IH]; simpl; auto. Qed.

Lemma unpack_II_total (buf : list byte) :
  List.length buf = 8%nat -> exists v, unpack_II buf = Ok v.
Proof.
  intros H.
  do 9 (destruct buf as [|? buf]; try discriminate H).
  eexists. reflexivity.
Qed.

Lemma unpack_II_short (buf : list byte) :
  List.length buf <> 8%nat ->
  unpack_II buf = Raise (StructError "unpack requires a buffer of 8 bytes").
Proof.
  intros H.
  do 9 (destruct buf as [|? buf]; try reflexivity).
  simpl in H. lia.
Qed.

Lemma unpack_IIII_length (buf : list byte) v :
  unpack_IIII buf = Ok v -> List.length buf = 16%nat.
Proof.
  intros H.
  do 17 (destruct buf as [|? buf]; try discriminate H).
  reflexivity.
Qed.

(** Every pixel value is a float32 between 0 and 1. *)
Lemma pixel_in_unit_interval (b : byte) : in_unit_interval (pixel b) = true.
Proof. destruct b; vm_compute; reflexivity. Qed.

(** *** Reshaping *)

Lemma mul_sizes_zero (dims : list Z) : mul_sizes 0 dims = Some 0.
Proof.
  induction dims as [|d dims IH]; [reflexivity |].
  cbn [mul_sizes]. rewrite Z.mul_0_l. exact IH.
Qed.

Lemma mul_sizes_product (dims : list Z) :
  forall acc s, mul_sizes acc dims = Some s -> s = acc * prod_dims dims.
Proof.
  induction dims as [|d dims IH]; intros acc s H; cbn [mul_sizes] in H.
  - injection H as <-. cbn. lia.
  - destruct (acc * d <=? npy_intp_max); [| discriminate H].
    apply IH in H. change (prod_dims (d :: dims)) with (d * prod_dims dims).
    lia.
Qed.

Lemma reshape_ok {A} (itemsize : Z) (a b : ndarray A) (dims : list Z) :
  reshape itemsize a dims = Ok b ->
  shape b = dims /\ data b = data a /\ prod_dims dims = size a.
Proof.
  unfold reshape. destruct (existsb (Z.eqb 0) dims).
  - destruct (mul_sizes 1 dims) as [s|] eqn:E; [| discriminate].
    destruct (Z.eqb_spec s (size a)) as [Hs|]; [| discriminate].
    destruct (mul_sizes itemsize (nonzero_dims dims)); [| discriminate].
    intros [= <-]. apply mul_sizes_product in E. cbn [shape data].
    repeat split. lia.
  - destruct (Z.eqb_spec (prod_dims dims) (size a)); [| discriminate].
    intros [= <-]. auto.
Qed.


(** Without a zero dimension only the element count matters. *)
Lemma reshape_positive {A} (itemsize : Z) (a : ndarray A) (dims : list Z) :
  existsb (Z.eqb 0) dims = false ->
  reshape itemsize a dims =
    if prod_dims dims =? size a
    then Ok (mk_ndarray dims (data a))
    else Raise (ValueError "cannot reshape array").
Proof. intros H. unfold reshape. rewrite H. reflexivity. Qed.

(** With a leading dimension of zero the array must be empty and the
    other dimensions must fit in [npy_intp]. *)
Lemma reshape_empty {A} (itemsize : Z) (a : ndarray A) (rest : list Z) :
  reshape itemsize a (0 :: rest) =
    if 0 =? size a
    then match mul_sizes itemsize (nonzero_dims rest) with
         | Some _ => Ok (mk_ndarray (0 :: rest) (data a))
         | None => Raise (ValueError "array is too big")
         end
    else Raise (ValueError "cannot reshape array").
Proof.
  unfold reshape. cbn [existsb Z.eqb orb mul_sizes Z.mul].
  change (0 <=? npy_intp_max) with true. cbv iota.
  rewrite mul_sizes_zero. reflexivity.
Qed.

(** The reshapes of [n] images of 28x28 bytes. *)
Lemma reshape_28 {A} (a : ndarray A) (n : Z) (mid : list Z) :
  mid = [28; 28] \/ mid = [1; 28; 28] ->
  size a = n * 784 ->
  reshape 1 a (n :: mid) = Ok (mk_ndarray (n :: mid) (data a)).
Proof.
  intros Hmid Hsz. destruct (Z.eq_dec n 0) as [->|Hne].
  - rewrite reshape_empty, Hsz. destruct Hmid as [-> | ->]; reflexivity.
  - rewrite reshape_positive.
    + replace (prod_dims (n :: mid) =? size a) with true; [reflexivity |].
      symmetry. apply Z.eqb_eq. rewrite Hsz.
      destruct Hmid as [-> | ->]; cbn [prod_dims fold_right]; lia.
    + cbn [existsb]. destruct (Z.eqb_spec 0 n) as [E|_]; [lia |].
      destruct Hmid as [-> | ->]; reflexivity.
Qed.





(** [load_data] on files that open and whose headers parse: the two
    reshapes decide the outcome. *)
Lemma load_data_parsed gunzip fs p h lbytes hdr pix magic count rows cols :
  gzip_open gunzip fs (find_file fs p "labels.gz") = Ok (h ++ lbytes) ->
  List.length h = 8%nat ->
  gzip_open gunzip fs (find_file fs p "images.gz") = Ok (hdr ++ pix) ->
  unpack_IIII hdr = Ok (magic, count, rows, cols) ->
  let n := Z.of_nat (List.length lbytes) in
  load_data gunzip fs p =
    (images <- reshape 1 (fromstring u8 pix) [n; rows; cols];
     _ <- reshape 1 images [n; 1; 28; 28];
     Ok (fromstring i8 lbytes, mk_ndarray [n; 1; 28; 28] (map pixel pix)))%result.
Proof.
  intros Hl Hh Hi Hu n. unfold load_data.
  rewrite Hl. cbn [rbind].
  rewrite (firstn_app_exact h lbytes 8 Hh), (skipn_app_exact h lbytes 8 Hh).
  destruct (unpack_II_total h Hh) as [v ->]. cbn [rbind].
  rewrite Hi. cbn [rbind].
  pose proof (unpack_IIII_length hdr _ Hu) as Hlen.
  rewrite (firstn_app_exact hdr pix 16 Hlen), (skipn_app_exact hdr pix 16 Hlen).
  rewrite Hu. cbn [rbind].
  change (len (fromstring i8 lbytes)) with (@Ok Z n). cbn [rbind].
  destruct (reshape 1 _ [n; rows; cols]) as [im1|e] eqn:R1; cbn [rbind];
    [| reflexivity].
  destruct (reshape_ok _ _ _ _ R1) as [S1 [D1 _]].
  unfold shape0. rewrite S1. cbn [rbind].
  destruct (reshape 1 im1 [n; 1; 28; 28]) as [im2|e] eqn:R2; cbn [rbind];
    [| reflexivity].
  destruct (reshape_ok _ _ _ _ R2) as [S2 [D2 _]].
  unfold div_scalar, astype_float32. rewrite S2, D2, D1.
  unfold fromstring. cbn [data]. rewrite !map_map. reflexivity.
Qed.

(** C2: on a valid dataset directory (both files open, headers
    well-formed, 28x28 images, one image per label) [load_data] returns
    the labels, read as signed bytes after the 8-byte header, and an image
    array of shape (N,1,28,28) with the same leading dimension, whose
    values are the pixel bytes divided by 255 in float32, all in [0,1]. *)
Theorem load_data_valid_dataset gunzip fs p h lbytes hdr pix magic count :
  gzip_open gunzip fs (find_file fs p "labels.gz") = Ok (h ++ lbytes) ->
  List.length h = 8%nat ->
  gzip_open gunzip fs (find_file fs p "images.gz") = Ok (hdr ++ pix) ->
  unpack_IIII hdr = Ok (magic, count, 28, 28) ->
  List.length pix = (List.length lbytes * 784)%nat ->
  let n := Z.of_nat (List.length lbytes) in
  exists labels images,
    load_data gunzip fs p = Ok (labels, images)
    /\ shape labels = [n]
    /\ data labels = map i8 lbytes
    /\ shape images = [n; 1; 28; 28]
    /\ len images = len labels
    /\ size images = n * 1 * 28 * 28
    /\ data images = map pixel pix
    /\ Forall (fun x => in_unit_interval x = true) (data images).
Proof.
  intros Hl Hh Hi Hu Hpix n.
  pose proof (load_data_parsed _ _ _ _ _ _ _ _ _ _ _ Hl Hh Hi Hu) as Hload.
  cbv zeta in Hload. fold n in Hload.
  assert (Hsz : Z.of_nat (List.length pix) = n * 784) by (unfold n; lia).
  assert (Hsize : size (fromstring u8 pix) = n * 784)
    by (unfold size, fromstring; cbn [data]; rewrite length_map; exact Hsz).
  rewrite reshape_28 in Hload by auto. cbn [rbind] in Hload.
  rewrite reshape_28 in Hload by auto. cbn [rbind] in Hload.
  eexists _, _. split; [exact Hload |].
  cbn [fromstring shape data len]. unfold size. cbn [data].
  rewrite length_map.
  repeat split; try reflexivity; try lia.
  apply Forall_forall. intros x Hx. apply in_map_iff in Hx.
  destruct Hx as [b [<- _]]. apply pixel_in_unit_interval.
Qed.

Lemma load_data_valid_dataset_witness :
  exists labels images,
    load_data stored sample_fs ["train"] = Ok (labels, images)
    /\ shape labels = [2]
    /\ data labels = [7; -3]
    /\ shape images = [2; 1; 28; 28]
    /\ len images = len labels
    /\ size images = 2 * 1 * 28 * 28
    /\ data images = map pixel (repeat x00 784%nat ++ repeat xff 784%nat)
    /\ Forall (fun x => in_unit_interval x = true) (data images).
Proof.
  apply (load_data_valid_dataset stored sample_fs ["train"]
           [x00; x00; x08; x01; x00; x00; x00; x02] [x07; xfd]
           [x00; x00; x08; x03; x00; x00; x00; x02;
            x00; x00; x00; x1c; x00; x00; x00; x1c]
           (repeat x00 784%nat ++ repeat xff 784%nat) 2051 2);
    reflexivity.
Defined.




(** C6 (as the code has it): when either file is absent from the walk,
    [load_data] fails.  The failure is the [TypeError] that [gzip.open]
    raises on the [None] returned by [find_file] when labels.gz is the
    absent one, and also when images.gz is absent and the labels file
    has been read with its complete header; otherwise the labels file's
    own error comes first. *)
Theorem load_data_missing_file gunzip fs p :
  find_file fs p "labels.gz" = None \/ find_file fs p "images.gz" = None ->
  let not_found :=
    TypeError "filename must be a str or bytes object, or a file" in
  (exists e, load_data gunzip fs p = Raise e)
  /\ (find_file fs p "labels.gz" = None ->
        load_data gunzip fs p = Raise not_found)
  /\ (forall flbl,
        gzip_open gunzip fs (find_file fs p "labels.gz") = Ok flbl ->
        (8 <= List.length flbl)%nat ->
        load_data gunzip fs p = Raise not_found).
Proof.
  intros Habs not_found.
  assert (Hlbl : find_file fs p "labels.gz" = None ->
                 load_data gunzip fs p = Raise not_found).
  { intros E. unfold load_data. rewrite E. reflexivity. }
  assert (Himg : find_file fs p "images.gz" = None ->
                 forall flbl,
                   gzip_open gunzip fs (find_file fs p "labels.gz") = Ok flbl ->
                   (8 <= List.length flbl)%nat ->
                   load_data gunzip fs p = Raise not_found).
  { intros E flbl Hopen Hlen. unfold load_data. rewrite Hopen. cbn [rbind].
    destruct (unpack_II_total (firstn 8 flbl)) as [v ->].
    - rewrite length_firstn. lia.
    - cbn [rbind]. rewrite E. reflexivity. }
  split; [| split].
  - destruct Habs as [E|E]; [eexists; apply Hlbl, E |].
    destruct (gzip_open gunzip fs (find_file fs p "labels.gz")) as [flbl|e] eqn:Hopen.
    + destruct (le_lt_dec 8 (List.length flbl)) as [Hlen|Hlen].
      * eexists. apply (Himg E flbl); [reflexivity | exact Hlen].
      * unfold load_data. rewrite Hopen. cbn [rbind].
        rewrite unpack_II_short; [eexists; reflexivity |].
        rewrite length_firstn. lia.
    + unfold load_data. rewrite Hopen. eexists. reflexivity.
  - exact Hlbl.
  - intros flbl Hopen Hlen. destruct Habs as [E|E].
    + rewrite E in Hopen. discriminate Hopen.
    + apply (Himg E flbl Hopen Hlen).
Qed.

Lemma load_data_missing_file_witness :
  load_data stored sample_fs ["validation"] =
    Raise (TypeError "filename must be a str or bytes object, or a file").
Proof.
  refine (proj1 (proj2 (load_data_missing_file stored sample_fs
                          ["validation"] _)) _).
  - left. reflexivity.
  - reflexivity.
Defined.

(** C6 fails as stated: images.gz is absent, yet the failure is the
    header error of the truncated labels.gz, raised before images.gz is
    looked for. *)
Lemma load_data_truncated_labels_error :
  find_file truncated_fs ["train"] "images.gz" = None
  /\ load_data stored truncated_fs ["train"] =
       Raise (StructError "unpack requires a buffer of 8 bytes")
  /\ forall msg, load_data stored truncated_fs ["train"] <> Raise (TypeError msg).
Proof. split; [reflexivity | split; [reflexivity | discriminate]]. Qed.

(** ** The request hook *)

(** C3: with any input content type other than application/x-npy,
    [transform_fn] raises the runtime error having only logged its
    invocation: the payload is not deserialized, no forward pass runs and
    the state of the model handle is the one it started from. *)
Theorem transform_fn_rejects_content_type (mx : MXNet)
  (payload : list byte) (input_content_type output_content_type : string)
  (s : serving mx) :
  input_content_type <> "application/x-npy" ->
  transform_fn mx payload input_content_type output_content_type s =
    (Raise (RuntimeError "Input content type must be application/x-npy"),
     mk_serving mx (handle mx s)
       (calls mx s ++ [SvLogInfo mx "Invoking user-defined transform_fn"])).
Proof.
  intros Hne. unfold transform_fn, bind, called, modify.
  destruct (String.eqb_spec input_content_type "application/x-npy") as [E|_];
    [contradiction | reflexivity].
Qed.

Lemma transform_fn_rejects_content_type_witness :
  transform_fn sample_mx [x01; x02] "text/csv" "application/json"
    (mk_serving sample_mx 5%nat []) =
    (Raise (RuntimeError "Input content type must be application/x-npy"),
     mk_serving sample_mx 5%nat
       [SvLogInfo sample_mx "Invoking user-defined transform_fn"]).
Proof.
  apply (transform_fn_rejects_content_type sample_mx [x01; x02]
           "text/csv" "application/json" (mk_serving sample_mx 5%nat [])).
  discriminate.
Defined.

(** C7: a call of [transform_fn] that returns declares the content type
    application/json, and the requested output content type has no effect
    on the outcome: any other requested type gives the same payload,
    content type and final state. *)
Theorem transform_fn_output_content_type (mx : MXNet)
  (payload : list byte) (input_content_type output_content_type : string)
  (s s' : serving mx) (output_json content_type : string) :
  transform_fn mx payload input_content_type output_content_type s =
    (Ok (output_json, content_type), s') ->
  content_type = "application/json"
  /\ forall requested,
       transform_fn mx payload input_content_type requested s =
         (Ok (output_json, content_type), s').
Proof.
  intros Hrun. split; [| intros requested; exact Hrun].
  revert Hrun. unfold transform_fn, bind, ret, lift, called, modify, raise.
  destruct (negb (input_content_type =? "application/x-npy")%string);
    [discriminate |].
  repeat match goal with
         | |- context [match ?r with Ok _ => _ | Raise _ => _ end] =>
             destruct r; try discriminate
         | |- context [let (_, _) := ?c in _] => destruct c
         end.
  intros [= _ <- _]. reflexivity.
Qed.

(** The payload of a returning call is the JSON of
    [exp(x - max(x)) / sum(exp(x - max(x)))], for [x] the squeezed first
    output of the handle after the forward pass, in the arithmetic of the
    framework. *)
Lemma transform_fn_softmax_flow (mx : MXNet)
  (payload : list byte) (input_content_type output_content_type : string)
  (s s' : serving mx) (output_json content_type : string) :
  transform_fn mx payload input_content_type output_content_type s =
    (Ok (output_json, content_type), s') ->
  exists outs out m,
    Module_get_outputs mx (handle mx s') = Ok outs
    /\ first_item outs = Ok out
    /\ np_max mx (np_squeeze mx out) = Ok m
    /\ let result_exp := np_exp mx (np_sub mx (np_squeeze mx out) m) in
       output_json =
         json_dumps_tolist mx (np_div mx result_exp (np_sum mx result_exp)).
Proof.
  unfold transform_fn, forward, get_outputs, bind, ret, lift, called, modify,
    raise, get.
  destruct (negb (input_content_type =? "application/x-npy")%string);
    cbv beta iota; [discriminate |].
  destruct (np_load mx payload) as [npy|]; cbv beta iota; [|discriminate].
  destruct (nd_array mx npy) as [arr|]; cbv beta iota; [|discriminate].
  cbn [handle calls].
  destruct (Module_forward mx (handle mx s) arr) as [m1|]; cbv beta iota;
    [|discriminate].
  cbn [handle calls].
  destruct (Module_get_outputs mx m1) as [outs|] eqn:Eouts; cbv beta iota;
    [|discriminate].
  destruct (first_item outs) as [out|] eqn:Efirst; cbv beta iota;
    [|discriminate].
  destruct (np_max mx (np_squeeze mx out)) as [m|] eqn:Emax; cbv beta iota;
    [|discriminate].
  intros [= <- _ <-]. exists outs, out, m. cbn [handle]. auto.
Qed.

Lemma transform_fn_output_content_type_witness :
  "application/json" = "application/json"
  /\ forall requested,
       transform_fn sample_mx [x01; x02] "application/x-npy" requested
         (mk_serving sample_mx 5%nat []) =
         (Ok ("[]", "application/json"),
          mk_serving sample_mx 6%nat
            [SvLogInfo sample_mx "Invoking user-defined transform_fn";
             SvNpLoad sample_mx [x01; x02];
             SvForward sample_mx [1; 2];
             SvGetOutputs sample_mx]).
Proof.
  apply (transform_fn_output_content_type sample_mx [x01; x02]
           "application/x-npy" "text/csv" (mk_serving sample_mx 5%nat [])).
  reflexivity.
Defined.

(** ** Sharding *)

Lemma shard_loop_first_position (s : Z) (ch : string) :
  forall hosts base i,
    nth_error hosts i = Some ch ->
    (forall j, (j < i)%nat -> nth_error hosts j <> Some ch) ->
    shard_loop s (enumerate_from base hosts) ch =
      Some (s * (base + Z.of_nat i), s * (base + Z.of_nat i) + s).
Proof.
  induction hosts as [|h hosts IH]; intros base i Hi Hfirst.
  - destruct i; discriminate.
  - destruct i as [|i]; simpl in Hi.
    + injection Hi as ->. simpl. rewrite String.eqb_refl.
      replace (base + 0) with base by lia. reflexivity.
    + simpl. destruct (String.eqb_spec h ch) as [->|Hne].
      * exfalso. apply (Hfirst 0%nat); [lia | reflexivity].
      * rewrite (IH (base + 1) i Hi).
        -- replace (base + 1 + Z.of_nat i) with (base + Z.of_nat (S i)) by lia.
           reflexivity.
        -- intros j Hj. apply (Hfirst (S j)). lia.
Qed.


Lemma shard_loop_absent (s : Z) (ch : string) :
  forall hosts base,
    ~ In ch hosts -> shard_loop s (enumerate_from base hosts) ch = None.
Proof.
  induction hosts as [|h hosts IH]; intros base Hnot; simpl; [reflexivity|].
  destruct (String.eqb_spec h ch) as [->|Hne].
  - exfalso. apply Hnot. now left.
  - apply IH. intros Hin. apply Hnot. now right.
Qed.

Lemma first_position_exists (ch : string) :
  forall hosts,
    In ch hosts ->
    exists i, nth_error hosts i = Some ch
              /\ forall j, (j < i)%nat -> nth_error hosts j <> Some ch.
Proof.
  induction hosts as [|h hosts IH]; intros Hin; [contradiction|].
  destruct (string_dec h ch) as [->|Hne].
  - exists 0%nat. split; [reflexivity | intros j Hj; lia].
  - destruct Hin as [->|Hin]; [contradiction|].
    destruct (IH Hin) as [i [Hi Hfirst]].
    exists (S i). split; [exact Hi|].
    intros [|j] Hj; simpl; [congruence | apply Hfirst; lia].
Qed.

Lemma shard_loop_present (s : Z) (ch : string) (hosts : list string) :
  In ch hosts -> exists b, shard_loop s (enumerate hosts) ch = Some b.
Proof.
  intros Hin. destruct (first_position_exists ch hosts Hin) as [i [Hi Hfirst]].
  eexists. apply (shard_loop_first_position s ch hosts 0 i Hi Hfirst).
Qed.




(** ** Arrays and slices *)



Lemma nd_slice_in_range {A} (a : ndarray A) (n : Z) (rest : list Z)
  (start stop : Z) :
  shape a = n :: rest ->
  0 <= start <= stop -> stop <= n ->
  nd_slice a start stop =
    Ok (mk_ndarray ((stop - start) :: rest)
          (firstn (Z.to_nat ((stop - start) * prod_dims rest))
             (skipn (Z.to_nat (start * prod_dims rest)) (data a)))).
Proof.
  intros Hshape Hss Hn. unfold nd_slice, slice_index. rewrite Hshape.
  destruct (Z.ltb_spec start 0); [lia|].
  destruct (Z.ltb_spec stop 0); [lia|].
  replace (Z.min start n) with start by lia.
  replace (Z.min stop n) with stop by lia.
  replace (Z.max (stop - start) 0) with (stop - start) by lia.
  reflexivity.
Qed.

(** What [load_data] returns is a vector of [n] labels and an array of
    [n] images of 1x28x28 values. *)
Lemma load_data_ok_shapes gunzip fs p labels images :
  load_data gunzip fs p = Ok (labels, images) ->
  exists n,
    0 <= n
    /\ shape labels = [n]
    /\ Z.of_nat (List.length (data labels)) = n
    /\ shape images = [n; 1; 28; 28]
    /\ Z.of_nat (List.length (data images)) = n * 784.
Proof.
  unfold load_data. intros H.
  destruct (gzip_open gunzip fs (find_file fs p "labels.gz")) as [flbl|];
    [|discriminate]. cbn [rbind] in H.
  destruct (unpack_II (firstn 8 flbl)); [|discriminate]. cbn [rbind] in H.
  destruct (gzip_open gunzip fs (find_file fs p "images.gz")) as [fimg|];
    [|discriminate]. cbn [rbind] in H.
  destruct (unpack_IIII (firstn 16 fimg)) as [[[[magic count] rows] cols]|];
    [|discriminate]. cbn [rbind len fromstring shape] in H.
  destruct (reshape _ _) as [im1|] eqn:R1; [|discriminate]. cbn [rbind] in H.
  apply reshape_ok in R1. destruct R1 as [S1 [D1 _]].
  unfold shape0 in H. rewrite S1 in H. cbn [rbind] in H.
  destruct (reshape 1 im1 _) as [im2|] eqn:R2; [|discriminate]. cbn [rbind] in H.
  apply reshape_ok in R2. destruct R2 as [S2 [D2 P2]].
  injection H as <- <-.
  exists (Z.of_nat (List.length (skipn 8 flbl))).
  split; [lia|]. split; [reflexivity|]. split.
  { unfold fromstring. cbn [data]. now rewrite length_map. }
  split; [exact S2|].
  unfold div_scalar, astype_float32. cbn [data]. rewrite !length_map, D2.
  unfold size in P2. cbn [prod_dims fold_right] in P2. lia.
Qed.

(** ** Runs of the training driver *)

Lemma bind_lift {S A B} (r : result A) (k : A -> M S B) (s : S) :
  bind (lift r) k s =
    match r with
    | Ok a => k a s
    | Raise e => (Raise e, s)
    end.
Proof. unfold bind, lift. destruct r; reflexivity. Qed.

Lemma respects_lift {S A} (R : S -> S -> Prop) (r : result A) :
  (forall s, R s s) -> respects R (@lift S A r).
Proof. intros Hrefl s r' s' [= _ <-]. apply Hrefl. Qed.

Lemma respects_ret {S A} (R : S -> S -> Prop) (a : A) :
  (forall s, R s s) -> respects R (@ret S A a).
Proof. intros Hrefl s r' s' [= _ <-]. apply Hrefl. Qed.

Lemma respects_raise {S A} (R : S -> S -> Prop) (e : exn) :
  (forall s, R s s) -> respects R (@raise S A e).
Proof. intros Hrefl s r' s' [= _ <-]. apply Hrefl. Qed.

Lemma respects_bind {S A B} (R : S -> S -> Prop) (c : M S A) (k : A -> M S B) :
  (forall a b d, R a b -> R b d -> R a d) ->
  respects R c -> (forall a, respects R (k a)) -> respects R (bind c k).
Proof.
  intros Htrans Hc Hk s r s' Hrun. unfold bind in Hrun.
  destruct (c s) as [[a|e] s1] eqn:Ec.
  - apply (Htrans _ s1); [apply (Hc _ _ _ Ec) | apply (Hk a _ _ _ Hrun)].
  - injection Hrun as _ <-. apply (Hc _ _ _ Ec).
Qed.

Lemma extends_refl {X} (t : list X) : extends t t.
Proof. exists []. now rewrite app_nil_r. Qed.

Lemma extends_trans {X} (a b d : list X) :
  extends a b -> extends b d -> extends a d.
Proof. intros [r1 ->] [r2 ->]. exists (r1 ++ r2). now rewrite app_assoc. Qed.

Lemma written_app {mx : MXNet} (t1 t2 : list (event mx)) :
  written (t1 ++ t2) = written t1 ++ written t2.
Proof.
  induction t1 as [|e t1 IH]; [reflexivity|].
  destruct e; simpl; rewrite IH; reflexivity.
Qed.

Lemma same_written_refl {mx : MXNet} (t : list (event mx)) : same_written t t.
Proof. reflexivity. Qed.

Lemma same_written_trans {mx : MXNet} (a b d : list (event mx)) :
  same_written a b -> same_written b d -> same_written a d.
Proof. unfold same_written. congruence. Qed.

Section TrainingRuns.

Variable gunzip : list byte -> option (list byte).
Variable writable : path -> bool.
Variable mx : MXNet.

Lemma bind_emit {B} (e : event mx) (k : unit -> M (list (event mx)) B) t :
  bind (emit mx e) k t = k tt (t ++ [e]).
Proof. reflexivity. Qed.

Lemma emit_extends (e : event mx) : respects extends (emit mx e).
Proof. intros t r t' [= _ <-]. now exists [e]. Qed.

Lemma emit_same_written (e : event mx) :
  written [e] = [] -> respects same_written (emit mx e).
Proof.
  intros He t r t' [= _ <-]. unfold same_written.
  rewrite written_app, He. apply app_nil_r.
Qed.

Lemma bind_call {A B} (e : event mx) (r : result A)
  (k : A -> M (list (event mx)) B) t :
  bind (call mx e r) k t =
    match r with
    | Ok a => k a (t ++ [e])
    | Raise x => (Raise x, t ++ [e])
    end.
Proof. unfold call, bind, emit, modify, lift. destruct r; reflexivity. Qed.

Lemma call_same_written {A} (e : event mx) (r : result A) :
  written [e] = [] -> respects same_written (call mx e r).
Proof.
  intros He t r' t' Hrun. unfold call, bind, emit, modify, lift in Hrun.
  injection Hrun as _ <-. unfold same_written.
  rewrite written_app, He. apply app_nil_r.
Qed.

Lemma write_file_extends p a e :
  respects extends (write_file writable mx p a e).
Proof.
  unfold write_file. destruct (writable p).
  - apply emit_extends.
  - apply respects_raise, extends_refl.
Qed.

Lemma save_extends model_dir model :
  respects extends (save writable mx model_dir model).
Proof.
  unfold save.
  repeat (apply respects_bind; [exact extends_trans | | intros _]);
    apply write_file_extends.
Qed.

(** [save] writes the three model files, in order, and returns only
    when all three are written. *)
Lemma save_writes model_dir model :
  writes (save writable mx model_dir model) (model_files model_dir).
Proof.
  intros t r t' Hrun.
  unfold save, write_file, bind, emit, modify, raise, model_files in *.
  repeat match type of Hrun with
         | context [if writable ?p then _ else _] => destruct (writable p)
         end;
    injection Hrun as <- <-;
    rewrite ?written_app; cbn [written]; rewrite <- ?app_assoc;
    eexists; (split; [first [reflexivity | symmetry; apply app_nil_r] |]);
    split; try discriminate; intros; try discriminate; reflexivity.
Qed.

(** A run of [save] adds writes of files only. *)
Lemma save_only_writes model_dir model t r t' :
  save writable mx model_dir model t = (r, t') ->
  exists ws,
    t' = t ++ ws /\ forall m ti vi a, ~ In (EvFit mx m ti vi a) ws.
Proof.
  unfold save, write_file, bind, emit, modify, raise.
  repeat match goal with
         | |- context [if writable ?p then _ else _] => destruct (writable p)
         end;
    intros [= _ <-]; rewrite <- ?app_assoc; cbn [app]; eexists;
    (split; [first [reflexivity | symmetry; apply app_nil_r] |]);
    cbn [In]; intros m ti vi a H; intuition discriminate.
Qed.

Lemma writes_bind {A B} (c : M (list (event mx)) A)
  (k : A -> M (list (event mx)) B) (W : list path) :
  respects same_written c -> (forall a, writes (k a) W) ->
  writes (bind c k) W.
Proof.
  intros Hc Hk t r t' Hrun. unfold bind in Hrun.
  destruct (c t) as [[a|e] t1] eqn:Ec; pose proof (Hc _ _ _ Ec) as Hsame;
    unfold same_written in Hsame.
  - destruct (Hk a _ _ _ Hrun) as [w [Hw Hrest]].
    exists w. rewrite Hw, Hsame. auto.
  - injection Hrun as <- <-. exists []. rewrite Hsame, app_nil_r.
    split; [reflexivity | split; [discriminate | auto]].
Qed.

Lemma writes_nothing {A} (c : M (list (event mx)) A) :
  respects same_written c -> writes c [].
Proof.
  intros Hc t r t' Hrun. exists []. rewrite (Hc _ _ _ Hrun), app_nil_r. auto.
Qed.

End TrainingRuns.

Lemma nd_slice_shard {A} (a : ndarray A) (n : Z) (rest : list Z) (s i : Z) :
  shape a = n :: rest ->
  0 <= s -> 0 <= i -> (i + 1) * s <= n ->
  nd_slice a (s * i) (s * i + s) =
    Ok (mk_ndarray (s :: rest)
          (firstn (Z.to_nat (s * prod_dims rest))
             (skipn (Z.to_nat (i * s * prod_dims rest)) (data a)))).
Proof.
  intros Hshape Hs Hi Hn.
  rewrite (nd_slice_in_range a n rest) by (assumption || nia).
  replace (s * i + s - s * i) with s by lia.
  replace (s * i) with (i * s) by lia. reflexivity.
Qed.

Ltac no_write :=
  first [ apply respects_lift; intros; apply same_written_refl
        | apply emit_same_written; reflexivity
        | apply call_same_written; reflexivity ].

Ltac writes_prelude :=
  repeat (cbv beta zeta;
          match goal with
          | |- writes (bind (lift (first_item _)) _) _ => fail 1
          | |- writes (bind _ _) _ => apply writes_bind; [ no_write | intros ? ]
          | |- context [let (_, _) := ?x in _] => is_var x; destruct x
          end).

(** One call of a run: the event is added, and the run goes on when the
    call returns. *)
Ltac run_call H :=
  rewrite bind_call in H;
  match type of H with
  | context [match ?r with Ok _ => _ | Raise _ => _ end] =>
      destruct r eqn:?; cbv beta iota in H; [| discriminate H]
  end.

(** The [fit] events of an explicit list of events. *)
Ltac fit_events :=
  let H := fresh "Hin" in
  intros ? ? ? ? H; cbn [In app] in H;
  repeat (destruct H as [H|H];
          [ first [ discriminate H
                  | injection H as <- <- <- <-; split;
                    first [ assumption | reflexivity ] ] |]);
  try contradiction.

Section TrainingDriver.

Variable gunzip : list byte -> option (list byte).
Variable writable : path -> bool.
Variable mx : MXNet.

Variable fs : node.
Variables batch_size epochs num_gpus : Z.
Variable learning_rate : learning_rate_t mx.
Variables training_channel testing_channel model_dir : path.

Local Abbreviation run hosts current_host :=
  (train gunzip writable mx fs batch_size epochs learning_rate num_gpus
     training_channel testing_channel hosts current_host model_dir).

Lemma is_leader_first_item (hosts : list string) (current_host : string) :
  is_leader hosts current_host = true <-> first_item hosts = Ok current_host.
Proof.
  destruct hosts as [|h0 tl]; simpl.
  - split; discriminate.
  - destruct (String.eqb_spec current_host h0) as [->|Hne]; split;
      congruence.
Qed.

Lemma train_writes (hosts : list string) (current_host : string) :
  writes (run hosts current_host)
    (if is_leader hosts current_host then model_files model_dir else []).
Proof.
  unfold train. writes_prelude.
  destruct hosts as [|h0 tl]; cbn [first_item is_leader].
  - intros t r t' Hrun. rewrite bind_lift in Hrun. injection Hrun as <- <-.
    exists []. rewrite app_nil_r. split; [reflexivity | split; [discriminate | auto]].
  - intros t r t' Hrun. rewrite bind_lift in Hrun. cbv beta in Hrun.
    destruct (current_host =? h0)%string.
    + exact (save_writes writable mx model_dir _ t r t' Hrun).
    + refine (writes_nothing mx (ret tt) _ t r t' Hrun).
      apply respects_ret. intros; apply same_written_refl.
Qed.

(** C5: the files written by a run of [train] are given by the test
    [current_host == hosts[0]]: when it fails (or [hosts] is empty) no
    file is written, whether the run returns or raises; when it holds
    and the run returns, the files written are exactly
    model-symbol.json, model-0000.params and model-shapes.json of the
    model directory. *)
Theorem train_save_gating (hosts : list string) (current_host : string)
  (t t' : list (event mx)) (r : result unit) :
  run hosts current_host t = (r, t') ->
  exists w,
    written t' = written t ++ w
    /\ (first_item hosts = Ok current_host ->
        r = Ok tt -> w = model_files model_dir)
    /\ (first_item hosts <> Ok current_host -> w = []).
Proof.
  intros Hrun.
  destruct (train_writes hosts current_host t r t' Hrun) as [w [Hw [Hok Hnone]]].
  exists w. split; [exact Hw |]. split.
  - intros Hlead Hr. apply is_leader_first_item in Hlead.
    rewrite Hlead in Hok. apply (Hok tt Hr).
  - intros Hnot. apply Hnone.
    destruct (is_leader hosts current_host) eqn:E; [| reflexivity].
    apply is_leader_first_item in E. contradiction.
Qed.

(** C9 (as the code has it): given that both datasets load, a
    non-empty [hosts] that does not contain [current_host] leaves the
    shard loop without binding [start] and [end], and [train] raises
    the unbound-local error for [start] with nothing added to the
    trace: no data iterator is built and no training runs.  Whenever
    [current_host] is in the list the loop binds the bounds.  (An empty
    [hosts] does not reach the loop: the division raises first.) *)
Theorem train_host_not_listed (hosts : list string) (current_host : string)
  (train_labels test_labels : ndarray Z)
  (train_images test_images : ndarray float32) (t : list (event mx)) :
  load_data gunzip fs training_channel = Ok (train_labels, train_images) ->
  load_data gunzip fs testing_channel = Ok (test_labels, test_images) ->
  hosts <> [] ->
  ~ In current_host hosts ->
  (forall shard_size,
      shard_loop shard_size (enumerate hosts) current_host = None)
  /\ run hosts current_host t = (Raise (UnboundLocalError "start"), t)
  /\ (forall others shard_size,
        In current_host others ->
        exists bounds,
          shard_loop shard_size (enumerate others) current_host = Some bounds).
Proof.
  intros Htrain Htest Hne Hnot.
  split; [intros; apply shard_loop_absent; exact Hnot |].
  split; [| intros others s Hin; apply shard_loop_present; exact Hin].
  destruct (load_data_ok_shapes _ _ _ _ _ Htrain) as [n [_ [_ [_ [Si _]]]]].
  unfold train.
  rewrite bind_lift, Htrain. cbv beta iota.
  rewrite bind_lift, Htest. cbv beta iota.
  rewrite bind_lift. unfold len. rewrite Si.
  rewrite bind_lift. unfold floordiv.
  destruct (Z.eqb_spec (Z.of_nat (List.length hosts)) 0) as [E|_].
  { destruct hosts; [contradiction | simpl in E; lia]. }
  cbv beta zeta. unfold enumerate. rewrite (shard_loop_absent _ _ _ _ Hnot).
  cbn [option_map read_local]. rewrite bind_lift. reflexivity.
Qed.

(** X12: with an empty host list, once both datasets are loaded, [train]
    raises the division error of the shard size, before any call to the
    framework. *)
Lemma train_no_host (current_host : string)
  (train_labels test_labels : ndarray Z)
  (train_images test_images : ndarray float32) (t : list (event mx)) :
  load_data gunzip fs training_channel = Ok (train_labels, train_images) ->
  load_data gunzip fs testing_channel = Ok (test_labels, test_images) ->
  run [] current_host t = (Raise ZeroDivisionError, t).
Proof.
  intros Htrain Htest.
  destruct (load_data_ok_shapes _ _ _ _ _ Htrain) as [n [_ [_ [_ [Si _]]]]].
  unfold train.
  rewrite bind_lift, Htrain. cbv beta iota.
  rewrite bind_lift, Htest. cbv beta iota.
  rewrite bind_lift. unfold len. rewrite Si.
  rewrite bind_lift. reflexivity.
Qed.

Lemma first_item_listed {A} (l : list A) (i : nat) (x : A) :
  nth_error l i = Some x -> exists x0, first_item l = Ok x0.
Proof. destruct l as [|x0 l]; [destruct i; discriminate | eexists; reflexivity]. Qed.

(** The calls of a run of [train] on a listed host: the first one builds
    the iterator over the host's slice of the training set, and a [fit]
    is given that iterator and the one over the test set; a run that
    returns has fitted. *)
Lemma train_first_call (hosts : list string) (current_host : string)
  (train_labels test_labels : ndarray Z)
  (train_images test_images : ndarray float32) (i : nat)
  (t : list (event mx)) :
  load_data gunzip fs training_channel = Ok (train_labels, train_images) ->
  load_data gunzip fs testing_channel = Ok (test_labels, test_images) ->
  nth_error hosts i = Some current_host ->
  (forall j, (j < i)%nat -> nth_error hosts j <> Some current_host) ->
  let s := Z.of_nat (List.length (data train_labels))
           / Z.of_nat (List.length hosts) in
  let start := Z.of_nat i * s in
  let shard_images :=
    mk_ndarray [s; 1; 28; 28]
      (firstn (Z.to_nat (s * 784))
         (skipn (Z.to_nat (start * 784)) (data train_images))) in
  let shard_labels :=
    mk_ndarray [s]
      (firstn (Z.to_nat (s * 1))
         (skipn (Z.to_nat (start * 1)) (data train_labels))) in
  exists rest,
    snd (run hosts current_host t) =
      t ++ EvNDArrayIter mx shard_images shard_labels batch_size true :: rest
    /\ (forall m train_iter val_iter a,
          In (EvFit mx m train_iter val_iter a) rest ->
          NDArrayIter mx shard_images shard_labels batch_size true
            = Ok train_iter
          /\ NDArrayIter mx test_images test_labels batch_size false
              = Ok val_iter)
    /\ (fst (run hosts current_host t) = Ok tt ->
        exists m train_iter val_iter a,
          In (EvFit mx m train_iter val_iter a) rest).
Proof.
  intros Htrain Htest Hi Hfirst s start shard_images shard_labels.
  destruct (load_data_ok_shapes _ _ _ _ _ Htrain)
    as [n [Hn [Sl [Ll [Si Li]]]]].
  assert (Hlt : (i < List.length hosts)%nat).
  { apply nth_error_Some. congruence. }
  assert (Hs : 0 <= s) by (apply Z.div_pos; lia).
  assert (Hcover : Z.of_nat (List.length hosts) * s <= n).
  { subst s. rewrite Ll. apply Z.mul_div_le. lia. }
  assert (Hin : (Z.of_nat i + 1) * s <= n) by nia.
  pose proof (shard_loop_first_position s current_host hosts 0 i Hi Hfirst)
    as Hshard.
  replace (0 + Z.of_nat i) with (Z.of_nat i) in Hshard by lia.
  destruct (first_item_listed hosts i current_host Hi) as [h0 Hh0].
  unfold train.
  rewrite bind_lift, Htrain. cbv beta iota.
  rewrite bind_lift, Htest. cbv beta iota.
  rewrite bind_lift. unfold len. rewrite Si.
  rewrite bind_lift. unfold floordiv.
  destruct (Z.eqb_spec (Z.of_nat (List.length hosts)) 0) as [E|_]; [lia|].
  cbv beta. rewrite <- Ll. fold s. unfold enumerate. rewrite Hshard.
  cbn [option_map read_local fst snd]. rewrite !bind_lift.
  rewrite (nd_slice_shard train_images n [1; 28; 28] s (Z.of_nat i))
    by (assumption || lia).
  rewrite bind_lift.
  rewrite (nd_slice_shard train_labels n [] s (Z.of_nat i))
    by (assumption || lia).
  change (prod_dims [1; 28; 28]) with 784. change (prod_dims []) with 1.
  fold start. fold shard_images. fold shard_labels.
  unfold mx_io_NDArrayIter, mx_mod_Module, fit.
  rewrite bind_call.
  destruct (NDArrayIter mx shard_images shard_labels batch_size true)
    as [ti|e1] eqn:Eti; cbn [fst snd].
  2: { exists []. split; [reflexivity |]. split; [fit_events | discriminate]. }
  rewrite bind_call.
  destruct (NDArrayIter mx test_images test_labels batch_size false)
    as [vi|e2] eqn:Evi; cbn [fst snd].
  2: { rewrite <- !app_assoc. cbn [app]. eexists. split; [reflexivity |].
       split; [fit_events | discriminate]. }
  rewrite bind_emit, bind_call.
  destruct (Module_new mx build_graph (get_training_context num_gpus))
    as [m0|e3] eqn:Em0; cbn [fst snd].
  2: { rewrite <- !app_assoc. cbn [app]. eexists. split; [reflexivity |].
       split; [fit_events | discriminate]. }
  rewrite bind_call.
  match goal with
  | |- context [Module_fit mx m0 ti vi ?a] =>
      destruct (Module_fit mx m0 ti vi a) as [m1|e4] eqn:Em1; cbn [fst snd]
  end.
  2: { rewrite <- !app_assoc. cbn [app]. eexists. split; [reflexivity |].
       split; [fit_events | discriminate]. }
  rewrite bind_lift, Hh0.
  destruct (current_host =? h0)%string.
  - destruct (save writable mx model_dir m1 _) as [r t'] eqn:Esave.
    destruct (save_only_writes _ _ _ _ _ _ _ Esave) as [ws [-> Hws]].
    cbn [fst snd]. rewrite <- !app_assoc. cbn [app].
    eexists. split; [reflexivity |]. split.
    + intros m ti' vi' a Hfit. cbn [In] in Hfit.
      repeat (destruct Hfit as [Hfit|Hfit]; [discriminate Hfit |]).
      destruct Hfit as [Hfit|Hfit].
      * injection Hfit as <- <- <- <-. split; reflexivity.
      * exfalso. apply (Hws _ _ _ _ Hfit).
    + intros _. do 4 eexists. do 3 right. left. reflexivity.
  - cbn [fst snd ret]. rewrite <- !app_assoc. cbn [app].
    eexists. split; [reflexivity |].
    split; [fit_events |].
    intros _. do 4 eexists. do 3 right. left. reflexivity.
Qed.


End TrainingDriver.

(** ** Runs on the sample environment *)

Lemma sample_train_loads :
  load_data stored sample_fs ["train"] =
    Ok (sample_label_array, sample_image_array).
Proof. reflexivity. Qed.

Lemma sample_test_loads :
  load_data stored sample_fs ["test"] =
    Ok (sample_label_array, sample_image_array).
Proof. reflexivity. Qed.

Lemma train_save_gating_witness :
  written (snd (sample_run ["algo-1"; "algo-2"] "algo-1" [])) =
    [["model"; "model-symbol.json"]; ["model"; "model-0000.params"];
     ["model"; "model-shapes.json"]]
  /\ written (snd (sample_run ["algo-1"; "algo-2"] "algo-2" [])) = [].
Proof.
  split.
  - assert (Hrun : sample_run ["algo-1"; "algo-2"] "algo-1" [] =
                     (Ok tt, snd (sample_run ["algo-1"; "algo-2"] "algo-1" [])))
      by (vm_compute; reflexivity).
    destruct (train_save_gating _ _ _ _ _ _ _ _ _ _ _ _ _ _ _ _ Hrun)
      as [w [Hw [Hlead _]]].
    rewrite Hw, (Hlead eq_refl eq_refl). reflexivity.
  - assert (Hrun : sample_run ["algo-1"; "algo-2"] "algo-2" [] =
                     (Ok tt, snd (sample_run ["algo-1"; "algo-2"] "algo-2" [])))
      by (vm_compute; reflexivity).
    destruct (train_save_gating _ _ _ _ _ _ _ _ _ _ _ _ _ _ _ _ Hrun)
      as [w [Hw [_ Hother]]].
    rewrite Hw, Hother; [reflexivity | discriminate].
Defined.

Lemma train_host_not_listed_witness :
  sample_run ["algo-1"; "algo-2"] "algo-3" [] =
    (Raise (UnboundLocalError "start"), []).
Proof.
  refine (proj1 (proj2 (train_host_not_listed stored always_writable sample_mx
            sample_fs 100 10 0 1 ["train"] ["test"] ["model"]
            ["algo-1"; "algo-2"] "algo-3" _ _ _ _ []
            sample_train_loads sample_test_loads _ _))).
  - discriminate.
  - intros [H | [H | []]]; discriminate H.
Defined.

(** C9 fails as stated: the empty list does not contain the current
    host, and [train] raises the division error, not the unbound-local
    one. *)
Lemma train_empty_hosts_zero_division :
  ~ In "algo-1" []
  /\ sample_run [] "algo-1" [] = (Raise ZeroDivisionError, [])
  /\ forall var,
       fst (sample_run [] "algo-1" []) <> Raise (UnboundLocalError var).
Proof.
  split; [intros [] |].
  split; [vm_compute; reflexivity |].
  intros var. vm_compute. discriminate.
Qed.



(** * Further properties *)

(** ** The search for a file *)









Lemma str_in_In (s : string) (l : list string) : str_in s l = true <-> In s l.
Proof.
  unfold str_in. rewrite existsb_exists. split.
  - intros [x [Hin Hx]]. apply String.eqb_eq in Hx. now subst.
  - intros Hin. exists s. split; [exact Hin | apply String.eqb_refl].
Qed.

Lemma filenames_In (name : string) (es : list (string * node)) :
  In name (filenames es) <->
  exists entry, In (name, entry) es /\ is_dir entry = false.
Proof.
  unfold filenames. rewrite in_map_iff. split.
  - intros [[k v] [Hk Hin]]. cbn [fst] in Hk. subst k.
    apply filter_In in Hin. destruct Hin as [Hin Hf]. cbn [snd] in Hf.
    exists v. split; [exact Hin |]. now destruct (is_dir v).
  - intros [entry [Hin Hf]]. exists (name, entry). split; [reflexivity |].
    apply filter_In. split; [exact Hin |]. cbn [snd]. now rewrite Hf.
Qed.



(** X1: a file that lies directly in the root directory is the one
    found, whatever the sub-directories hold: the walk is top-down. *)
Theorem find_file_root_first (fs : node) (root_path : path)
  (file_name : string) (es : list (string * node)) (c : list byte) :
  resolve fs root_path = Some (Dir es) ->
  In (file_name, File c) es ->
  find_file fs root_path file_name = Some (root_path ++ [file_name]).
Proof.
  intros Hres Hin. unfold find_file, os_walk. rewrite Hres.
  cbn [walk find_file_loop].
  replace (str_in file_name (filenames es)) with true; [reflexivity |].
  symmetry. apply str_in_In, filenames_In. exists (File c).
  split; [exact Hin | reflexivity].
Qed.

Lemma find_file_root_first_witness :
  find_file sample_fs ["train"] "images.gz" = Some ["train"; "images.gz"].
Proof.
  apply (find_file_root_first sample_fs ["train"] "images.gz"
           [("labels.gz", File sample_labels); ("images.gz", File sample_images)]
           sample_images).
  - reflexivity.
  - right. left. reflexivity.
Defined.





(** ** Failures and postcondition of the loader *)

Lemma unpack_IIII_short (buf : list byte) :
  List.length buf <> 16%nat ->
  unpack_IIII buf = Raise (StructError "unpack requires a buffer of 16 bytes").
Proof.
  intros H.
  do 17 (destruct buf as [|? buf]; try reflexivity).
  simpl in H. lia.
Qed.

(** X4: a labels file shorter than its 8-byte header, or an images file
    shorter than its 16-byte header, makes [load_data] raise the unpack
    error of that header; an error in opening or decoding labels.gz is
    raised as it is. *)
Theorem load_data_header_errors (gunzip : list byte -> option (list byte))
  (fs : node) (p : path) :
  (forall e,
      gzip_open gunzip fs (find_file fs p "labels.gz") = Raise e ->
      load_data gunzip fs p = Raise e)
  /\ (forall flbl,
        gzip_open gunzip fs (find_file fs p "labels.gz") = Ok flbl ->
        (List.length flbl < 8)%nat ->
        load_data gunzip fs p =
          Raise (StructError "unpack requires a buffer of 8 bytes"))
  /\ (forall flbl fimg,
        gzip_open gunzip fs (find_file fs p "labels.gz") = Ok flbl ->
        (8 <= List.length flbl)%nat ->
        gzip_open gunzip fs (find_file fs p "images.gz") = Ok fimg ->
        (List.length fimg < 16)%nat ->
        load_data gunzip fs p =
          Raise (StructError "unpack requires a buffer of 16 bytes")).
Proof.
  split; [| split].
  - intros e He. unfold load_data. rewrite He. reflexivity.
  - intros flbl Hl Hlen. unfold load_data. rewrite Hl. cbn [rbind].
    rewrite unpack_II_short; [reflexivity |]. rewrite length_firstn. lia.
  - intros flbl fimg Hl Hlen Hi Hilen. unfold load_data. rewrite Hl.
    cbn [rbind]. destruct (unpack_II_total (firstn 8 flbl)) as [v ->];
      [rewrite length_firstn; lia |].
    cbn [rbind]. rewrite Hi. cbn [rbind].
    rewrite unpack_IIII_short; [reflexivity |]. rewrite length_firstn. lia.
Qed.

Lemma load_data_header_errors_witness :
  load_data stored truncated_fs ["train"] =
    Raise (StructError "unpack requires a buffer of 8 bytes").
Proof.
  refine (proj1 (proj2 (load_data_header_errors stored truncated_fs ["train"]))
            [x00; x00; x08] _ _).
  - reflexivity.
  - cbn. lia.
Defined.

(** X5: the result of [load_data] depends on the label bytes, the pixel
    bytes and the declared rows and columns only: the magic numbers, the
    declared counts and the place of the two files under the root play no
    part. *)
Theorem load_data_header_fields_ignored
  (gunzip1 gunzip2 : list byte -> option (list byte)) (fs1 fs2 : node)
  (p1 p2 : path) (h1 h2 hdr1 hdr2 lbytes pix : list byte)
  (magic1 magic2 count1 count2 rows cols : Z) :
  gzip_open gunzip1 fs1 (find_file fs1 p1 "labels.gz") = Ok (h1 ++ lbytes) ->
  gzip_open gunzip2 fs2 (find_file fs2 p2 "labels.gz") = Ok (h2 ++ lbytes) ->
  List.length h1 = 8%nat -> List.length h2 = 8%nat ->
  gzip_open gunzip1 fs1 (find_file fs1 p1 "images.gz") = Ok (hdr1 ++ pix) ->
  gzip_open gunzip2 fs2 (find_file fs2 p2 "images.gz") = Ok (hdr2 ++ pix) ->
  unpack_IIII hdr1 = Ok (magic1, count1, rows, cols) ->
  unpack_IIII hdr2 = Ok (magic2, count2, rows, cols) ->
  load_data gunzip1 fs1 p1 = load_data gunzip2 fs2 p2.
Proof.
  intros L1 L2 H1 H2 I1 I2 U1 U2.
  rewrite (load_data_parsed _ _ _ _ _ _ _ _ _ _ _ L1 H1 I1 U1).
  rewrite (load_data_parsed _ _ _ _ _ _ _ _ _ _ _ L2 H2 I2 U2).
  reflexivity.
Qed.

Lemma load_data_header_fields_ignored_witness :
  load_data stored sample_fs ["test"] = load_data stored odd_header_fs [].
Proof.
  apply (load_data_header_fields_ignored stored stored sample_fs odd_header_fs
           ["test"] []
           [x00; x00; x08; x01; x00; x00; x00; x02]
           [x00; x00; x00; x00; x00; x00; x00; x09]
           [x00; x00; x08; x03; x00; x00; x00; x02;
            x00; x00; x00; x1c; x00; x00; x00; x1c]
           [xff; xff; xff; xff; x00; x00; x00; x63;
            x00; x00; x00; x1c; x00; x00; x00; x1c]
           [x07; xfd] (repeat x00 784%nat ++ repeat xff 784%nat)
           2051 4294967295 2 99 28 28); reflexivity.
Defined.

Lemma i8_range (b : byte) : -128 <= i8 b <= 127.
Proof. destruct b; vm_compute; split; discriminate. Qed.

(** X6: whatever the dataset, when [load_data] returns, the labels are a
    vector of [n] signed bytes, the images an array of shape
    (n,1,28,28) holding [n * 784] values, and every value is a float32
    between 0 and 1. *)
Theorem load_data_postcondition (gunzip : list byte -> option (list byte))
  (fs : node) (p : path) (labels : ndarray Z) (images : ndarray float32) :
  load_data gunzip fs p = Ok (labels, images) ->
  exists n,
    shape labels = [n] /\ shape images = [n; 1; 28; 28]
    /\ well_shaped labels /\ well_shaped images
    /\ Forall (fun l => -128 <= l <= 127) (data labels)
    /\ Forall (fun x => in_unit_interval x = true) (data images).
Proof.
  intros Hload.
  destruct (load_data_ok_shapes _ _ _ _ _ Hload) as [n [Hn [Sl [Ll [Si Li]]]]].
  exists n. split; [exact Sl |]. split; [exact Si |].
  assert (Hdata : (exists lbytes, data labels = map i8 lbytes)
                  /\ exists ints, data images = map pixel ints).
  { revert Hload. unfold load_data.
    destruct (gzip_open gunzip fs (find_file fs p "labels.gz")) as [flbl|];
      [|discriminate]. cbn [rbind].
    destruct (unpack_II (firstn 8 flbl)); [|discriminate]. cbn [rbind].
    destruct (gzip_open gunzip fs (find_file fs p "images.gz")) as [fimg|];
      [|discriminate]. cbn [rbind].
    destruct (unpack_IIII (firstn 16 fimg)) as [[[[magic count] rows] cols]|];
      [|discriminate]. cbn [rbind len fromstring shape].
    destruct (reshape _ _) as [im1|] eqn:R1; [|discriminate]. cbn [rbind].
    apply reshape_ok in R1. destruct R1 as [S1 [D1 _]].
    unfold shape0. rewrite S1. cbn [rbind].
    destruct (reshape 1 im1 _) as [im2|] eqn:R2; [|discriminate]. cbn [rbind].
    apply reshape_ok in R2. destruct R2 as [_ [D2 _]].
    intros [= <- <-]. split.
    - eexists. reflexivity.
    - exists (skipn 16 fimg). unfold div_scalar, astype_float32. cbn [data].
      rewrite D2, D1. unfold fromstring. cbn [data]. rewrite !map_map.
      reflexivity. }
  destruct Hdata as [[lbytes Hl] [ints Hi]].
  split; [| split; [| split]].
  - split; [rewrite Sl; repeat constructor; lia |].
    rewrite Sl. unfold size. cbn [prod_dims fold_right]. lia.
  - split; [rewrite Si; repeat constructor; lia |].
    rewrite Si. unfold size. cbn [prod_dims fold_right]. lia.
  - rewrite Hl. apply Forall_forall. intros x Hx. apply in_map_iff in Hx.
    destruct Hx as [b [<- _]]. apply i8_range.
  - rewrite Hi. apply Forall_forall. intros x Hx. apply in_map_iff in Hx.
    destruct Hx as [b [<- _]]. apply pixel_in_unit_interval.
Qed.

Lemma load_data_postcondition_witness :
  exists n,
    shape sample_label_array = [n] /\ shape sample_image_array = [n; 1; 28; 28]
    /\ well_shaped sample_label_array /\ well_shaped sample_image_array
    /\ Forall (fun l => -128 <= l <= 127) (data sample_label_array)
    /\ Forall (fun x => in_unit_interval x = true) (data sample_image_array).
Proof.
  apply (load_data_postcondition stored sample_fs ["train"]).
  reflexivity.
Defined.

(** ** More on the training driver *)

Lemma take_while_prefix {A} (f : A -> bool) (l : list A) :
  exists rest, l = take_while f l ++ rest.
Proof.
  induction l as [|x l [rest IH]]; [exists []; reflexivity |].
  cbn [take_while]. destruct (f x).
  - exists rest. cbn [app]. now rewrite <- IH.
  - exists (x :: l). reflexivity.
Qed.

Lemma signature_records (shapes : list (string * list Z)) :
  map (fun data_desc : string * list Z =>
         (fst data_desc, map (fun dim => dim) (snd data_desc))) shapes
  = shapes.
Proof.
  induction shapes as [|[name dims] shapes IH]; [reflexivity |].
  cbn [map fst snd]. now rewrite map_id, IH.
Qed.

Ltac run_lift H :=
  rewrite bind_lift in H;
  match type of H with
  | context [match ?r with Ok _ => _ | Raise _ => _ end] =>
      destruct r eqn:?; cbv beta iota in H; [| discriminate H]
  end.

Section TrainingDriverMore.

Variable gunzip : list byte -> option (list byte).
Variable writable : path -> bool.
Variable mx : MXNet.

Variable fs : node.
Variables batch_size epochs num_gpus : Z.
Variable learning_rate : learning_rate_t mx.
Variables training_channel testing_channel model_dir : path.

Local Abbreviation run hosts current_host :=
  (train gunzip writable mx fs batch_size epochs learning_rate num_gpus
     training_channel testing_channel hosts current_host model_dir).

(** The files written by a run of [save], and when it returns. *)
Lemma save_run (model : module mx)
  (t t' : list (event mx)) (r : result unit) :
  save writable mx model_dir model t = (r, t') ->
  written t' = written t ++ take_while writable (model_files model_dir)
  /\ (r = Ok tt <-> forallb writable (model_files model_dir) = true).
Proof.
  unfold save, write_file, bind, emit, modify, raise, model_files.
  cbn [take_while forallb].
  destruct (writable (os_path_join model_dir "model-symbol.json"));
    [destruct (writable (os_path_join model_dir "model-0000.params"));
     [destruct (writable (os_path_join model_dir "model-shapes.json")) |] |];
    cbn [andb]; intros [= <- <-];
    rewrite ?written_app; cbn [written]; rewrite <- ?app_assoc, ?app_nil_r;
    (split; [reflexivity | split; intros; (reflexivity || discriminate)]).
Qed.

(** X7: [save] writes the model files in order and stops at the first
    one that cannot be written: the files written are the longest
    writable prefix of the three, and the call returns exactly when all
    three can be written. *)
Theorem save_longest_writable_prefix (model : module mx)
  (t t' : list (event mx)) (r : result unit) :
  save writable mx model_dir model t = (r, t') ->
  written t' = written t ++ take_while writable (model_files model_dir)
  /\ (r = Ok tt <-> forallb writable (model_files model_dir) = true).
Proof. apply save_run. Qed.

(** The events of a [save] that returns. *)
Lemma save_returns (model : module mx) (t t' : list (event mx)) :
  save writable mx model_dir model t = (Ok tt, t') ->
  t' = t ++ [EvWrite mx (os_path_join model_dir "model-symbol.json")
               (SymbolJson mx (Module_symbol mx model));
             EvWrite mx (os_path_join model_dir "model-0000.params")
               (ParamsFile mx model);
             EvWrite mx (os_path_join model_dir "model-shapes.json")
               (ShapesJson mx (Module_data_shapes mx model))].
Proof.
  unfold save, write_file, bind, emit, modify, raise.
  rewrite signature_records.
  destruct (writable (os_path_join model_dir "model-symbol.json"));
    [destruct (writable (os_path_join model_dir "model-0000.params"));
     [destruct (writable (os_path_join model_dir "model-shapes.json")) |] |];
    intros [= <-]. rewrite <- !app_assoc. reflexivity.
Qed.

Lemma writes_within_bind {A B} (c : M (list (event mx)) A)
  (k : A -> M (list (event mx)) B) (W : list path) :
  respects same_written c -> (forall a, writes_within (k a) W) ->
  writes_within (bind c k) W.
Proof.
  intros Hc Hk t r t' Hrun. unfold bind in Hrun.
  destruct (c t) as [[a|e] t1] eqn:Ec; pose proof (Hc _ _ _ Ec) as Hsame;
    unfold same_written in Hsame.
  - destruct (Hk a _ _ _ Hrun) as [w [rest [Hw HW]]].
    exists w, rest. rewrite Hw, Hsame. auto.
  - injection Hrun as <- <-. exists [], W. rewrite Hsame, app_nil_r. auto.
Qed.

Ltac within_auto :=
  repeat (cbv beta zeta;
          match goal with
          | |- writes_within (bind _ _) _ =>
              apply writes_within_bind; [ no_write | intros ? ]
          | |- writes_within (if ?b then _ else _) _ => destruct b
          | |- context [let (_, _) := ?x in _] => is_var x; destruct x
          end).

Lemma train_writes_within (hosts : list string) (current_host : string) :
  writes_within (run hosts current_host) (model_files model_dir).
Proof.
  unfold train. within_auto.
  - intros t r t' Hrun.
    destruct (save_run _ _ _ _ Hrun) as [Hw _].
    destruct (take_while_prefix writable (model_files model_dir)) as [rest Hrest].
    eexists _, rest. split; [exact Hw | exact Hrest].
  - intros t r t' [= _ <-]. exists [], (model_files model_dir).
    rewrite app_nil_r. auto.
Qed.

(** X8: whatever the outcome of a run of [train], the files it has
    written are the first few of the three model files of the model
    directory, in order: no other path is ever written. *)
Theorem train_writes_only_model_files (hosts : list string)
  (current_host : string) (t t' : list (event mx)) (r : result unit) :
  run hosts current_host t = (r, t') ->
  exists w rest,
    written t' = written t ++ w /\ model_files model_dir = w ++ rest.
Proof. apply train_writes_within. Qed.

(** X9: an error of [load_data] on the training channel, or on the
    testing channel once the training data is loaded, is the error of
    [train], raised before any call to the framework. *)
Theorem train_dataset_error (hosts : list string) (current_host : string)
  (e : exn) (t : list (event mx)) :
  load_data gunzip fs training_channel = Raise e
  \/ ((exists d, load_data gunzip fs training_channel = Ok d)
      /\ load_data gunzip fs testing_channel = Raise e) ->
  run hosts current_host t = (Raise e, t).
Proof.
  intros [Htrain | [[[lbl img] Htrain] Htest]]; unfold train;
    rewrite bind_lift, Htrain; [reflexivity |].
  cbv beta iota. rewrite bind_lift, Htest. reflexivity.
Qed.

(** X10: with a single host that is the current host, the run trains on
    the whole training set: the first call builds the iterator on the
    loaded arrays themselves. *)
Theorem train_single_host (host : string)
  (train_labels test_labels : ndarray Z)
  (train_images test_images : ndarray float32) (t : list (event mx)) :
  load_data gunzip fs training_channel = Ok (train_labels, train_images) ->
  load_data gunzip fs testing_channel = Ok (test_labels, test_images) ->
  exists rest,
    snd (run [host] host t) =
      t ++ EvNDArrayIter mx train_images train_labels batch_size true :: rest.
Proof.
  intros Htrain Htest.
  destruct (load_data_ok_shapes _ _ _ _ _ Htrain) as [n [Hn [Sl [Ll [Si Li]]]]].
  assert (Hfirst : forall j, (j < 0)%nat -> nth_error [host] j <> Some host)
    by (intros j Hj; lia).
  destruct (train_first_call gunzip writable mx fs batch_size epochs num_gpus
              learning_rate training_channel testing_channel model_dir
              [host] host _ _ _ _ 0%nat t Htrain Htest eq_refl Hfirst)
    as [rest [Hrest _]].
  exists rest. rewrite Hrest. clear Hrest.
  cbn [List.length]. change (Z.of_nat 1) with 1. rewrite Z.div_1_r, Ll.
  change (Z.of_nat 0 * n * 784) with 0. change (Z.of_nat 0 * n * 1) with 0.
  cbn [Z.to_nat skipn].
  replace (Z.to_nat (n * 784)) with (List.length (data train_images)) by lia.
  replace (Z.to_nat (n * 1)) with (List.length (data train_labels)) by lia.
  rewrite !firstn_all.
  destruct train_images as [sh1 d1], train_labels as [sh2 d2].
  cbn [shape data] in *. subst sh1 sh2. reflexivity.
Qed.

(** X11: the calls of a run of [train] that returns, in order, each
    made on the results of the ones before: the iterator on the shard of
    the current host, shuffled; the iterator on the whole test set, not
    shuffled; the log level; the module on the graph of [build_graph]
    and the context of [get_training_context]; [fit] of that module on
    these two iterators, with the [local] key-value store when there is
    exactly one host and [dist_sync] otherwise; and, when the current
    host is the first of the list, the three files of the module that
    [fit] returned, the last holding the name and dimensions of each of
    its inputs. *)
Theorem train_returning_run (hosts : list string) (current_host : string)
  (train_labels test_labels : ndarray Z)
  (train_images test_images : ndarray float32) (t t' : list (event mx)) :
  load_data gunzip fs training_channel = Ok (train_labels, train_images) ->
  load_data gunzip fs testing_channel = Ok (test_labels, test_images) ->
  run hosts current_host t = (Ok tt, t') ->
  let N := Z.of_nat (List.length (data train_labels)) in
  let H := Z.of_nat (List.length hosts) in
  let args := mk_fit_args (if H =? 1 then "local" else "dist_sync") "sgd"
                learning_rate "acc" (batch_size, 100) epochs in
  exists start stop shard_images shard_labels train_iter val_iter
         mlp_model fitted,
    shard_loop (N / H) (enumerate hosts) current_host = Some (start, stop)
    /\ nd_slice train_images start stop = Ok shard_images
    /\ nd_slice train_labels start stop = Ok shard_labels
    /\ NDArrayIter mx shard_images shard_labels batch_size true
        = Ok train_iter
    /\ NDArrayIter mx test_images test_labels batch_size false = Ok val_iter
    /\ Module_new mx build_graph (get_training_context num_gpus)
        = Ok mlp_model
    /\ Module_fit mx mlp_model train_iter val_iter args = Ok fitted
    /\ t' = t ++
         [EvNDArrayIter mx shard_images shard_labels batch_size true;
          EvNDArrayIter mx test_images test_labels batch_size false;
          EvSetLevel mx "DEBUG";
          EvModule mx build_graph (get_training_context num_gpus);
          EvFit mx mlp_model train_iter val_iter args]
         ++ (if is_leader hosts current_host
             then [EvWrite mx (os_path_join model_dir "model-symbol.json")
                     (SymbolJson mx (Module_symbol mx fitted));
                   EvWrite mx (os_path_join model_dir "model-0000.params")
                     (ParamsFile mx fitted);
                   EvWrite mx (os_path_join model_dir "model-shapes.json")
                     (ShapesJson mx (Module_data_shapes mx fitted))]
             else []).
Proof.
  intros Htrain Htest Hrun N H args.
  destruct (load_data_ok_shapes _ _ _ _ _ Htrain) as [n [Hn [Sl [Ll [Si Li]]]]].
  fold N in Ll. subst n.
  unfold train in Hrun.
  rewrite bind_lift, Htrain in Hrun. cbv beta iota in Hrun.
  rewrite bind_lift, Htest in Hrun. cbv beta iota in Hrun.
  rewrite bind_lift in Hrun. unfold len in Hrun. rewrite Si in Hrun.
  cbv beta iota in Hrun.
  rewrite bind_lift in Hrun. unfold floordiv in Hrun. fold H in Hrun.
  destruct (H =? 0) eqn:EH; [discriminate Hrun |].
  cbv beta iota zeta in Hrun.
  destruct (shard_loop (N / H) (enumerate hosts) current_host)
    as [[start stop]|] eqn:Eshard;
    cbn [option_map read_local fst snd] in Hrun;
    rewrite bind_lift in Hrun; [| discriminate Hrun].
  cbv beta iota in Hrun. rewrite bind_lift in Hrun. cbv beta iota in Hrun.
  run_lift Hrun. run_lift Hrun.
  unfold mx_io_NDArrayIter, mx_mod_Module, fit in Hrun.
  run_call Hrun. run_call Hrun.
  rewrite bind_emit in Hrun. run_call Hrun. run_call Hrun.
  rewrite bind_lift in Hrun.
  exists start, stop. do 6 eexists.
  split; [reflexivity |].
  do 6 (split; [first [eassumption | reflexivity] |]).
  destruct hosts as [|h0 tl]; cbn [first_item is_leader] in *;
    [discriminate Hrun |].
  cbv beta iota in Hrun.
  destruct (current_host =? h0)%string.
  - apply save_returns in Hrun. rewrite Hrun, <- !app_assoc. reflexivity.
  - injection Hrun as <-. rewrite <- !app_assoc, app_nil_r. reflexivity.
Qed.

End TrainingDriverMore.

Lemma save_longest_writable_prefix_witness :
  written (snd (save symbol_file_only sample_mx ["model"] 0%nat [])) =
    [["model"; "model-symbol.json"]]
  /\ fst (save symbol_file_only sample_mx ["model"] 0%nat []) <> Ok tt.
Proof.
  destruct (save_longest_writable_prefix symbol_file_only sample_mx ["model"]
              0%nat []
              (snd (save symbol_file_only sample_mx ["model"] 0%nat []))
              (fst (save symbol_file_only sample_mx ["model"] 0%nat []))
              eq_refl) as [Hw Hr].
  split; [rewrite Hw; reflexivity |].
  intros Hok. apply Hr in Hok. discriminate Hok.
Defined.

Lemma train_writes_only_model_files_witness :
  exists w rest,
    written (snd (train stored symbol_file_only sample_mx sample_fs 100 10 1 0
                    ["train"] ["test"] ["algo-1"] "algo-1" ["model"] []))
      = [] ++ w
    /\ model_files ["model"] = w ++ rest.
Proof.
  apply (train_writes_only_model_files stored symbol_file_only sample_mx
           sample_fs 100 10 0 1 ["train"] ["test"] ["model"]
           ["algo-1"] "algo-1" []
           (snd (train stored symbol_file_only sample_mx sample_fs 100 10 1 0
                   ["train"] ["test"] ["algo-1"] "algo-1" ["model"] []))
           (fst (train stored symbol_file_only sample_mx sample_fs 100 10 1 0
                   ["train"] ["test"] ["algo-1"] "algo-1" ["model"] []))).
  vm_compute. reflexivity.
Defined.

Lemma train_dataset_error_witness :
  train stored always_writable sample_mx sample_fs 100 10 1 0
    ["validation"] ["test"] ["algo-1"] "algo-1" ["model"] [] =
    (Raise (TypeError "filename must be a str or bytes object, or a file"), []).
Proof.
  apply (train_dataset_error stored always_writable sample_mx sample_fs
           100 10 0 1 ["validation"] ["test"] ["model"] ["algo-1"] "algo-1").
  left. reflexivity.
Defined.

Lemma train_single_host_witness :
  exists rest,
    snd (sample_run ["algo-1"] "algo-1" []) =
      [] ++ EvNDArrayIter sample_mx sample_image_array sample_label_array
              100 true :: rest.
Proof.
  apply (train_single_host stored always_writable sample_mx sample_fs
           100 10 0 1 ["train"] ["test"] ["model"] "algo-1"
           sample_label_array sample_label_array
           sample_image_array sample_image_array []
           sample_train_loads sample_test_loads).
Defined.

Lemma train_returning_run_witness :
  exists start stop shard_images shard_labels train_iter val_iter
         mlp_model fitted,
    shard_loop (2 / 2) (enumerate ["algo-1"; "algo-2"]) "algo-2" =
      Some (start, stop)
    /\ nd_slice sample_image_array start stop = Ok shard_images
    /\ nd_slice sample_label_array start stop = Ok shard_labels
    /\ NDArrayIter sample_mx shard_images shard_labels 100 true
        = Ok train_iter
    /\ NDArrayIter sample_mx sample_image_array sample_label_array 100 false
        = Ok val_iter
    /\ Module_new sample_mx build_graph (get_training_context 0)
        = Ok mlp_model
    /\ Module_fit sample_mx mlp_model train_iter val_iter
         (mk_fit_args "dist_sync" "sgd" 1 "acc" (100, 100) 10) = Ok fitted
    /\ snd (sample_run ["algo-1"; "algo-2"] "algo-2" []) =
         [] ++
         [EvNDArrayIter sample_mx shard_images shard_labels 100 true;
          EvNDArrayIter sample_mx sample_image_array sample_label_array
            100 false;
          EvSetLevel sample_mx "DEBUG";
          EvModule sample_mx build_graph (get_training_context 0);
          EvFit sample_mx mlp_model train_iter val_iter
            (mk_fit_args "dist_sync" "sgd" 1 "acc" (100, 100) 10)]
         ++ (if is_leader ["algo-1"; "algo-2"] "algo-2"
             then [EvWrite sample_mx (os_path_join ["model"] "model-symbol.json")
                     (SymbolJson sample_mx (Module_symbol sample_mx fitted));
                   EvWrite sample_mx (os_path_join ["model"] "model-0000.params")
                     (ParamsFile sample_mx fitted);
                   EvWrite sample_mx (os_path_join ["model"] "model-shapes.json")
                     (ShapesJson sample_mx (Module_data_shapes sample_mx fitted))]
             else []).
Proof.
  assert (Hrun : sample_run ["algo-1"; "algo-2"] "algo-2" [] =
                   (Ok tt, snd (sample_run ["algo-1"; "algo-2"] "algo-2" [])))
    by (vm_compute; reflexivity).
  exact (train_returning_run stored always_writable sample_mx sample_fs
           100 10 0 1 ["train"] ["test"] ["model"] ["algo-1"; "algo-2"] "algo-2"
           sample_label_array sample_label_array
           sample_image_array sample_image_array [] _
           sample_train_loads sample_test_loads Hrun).
Defined.

Lemma train_no_host_witness :
  sample_run [] "algo-1" [] = (Raise ZeroDivisionError, []).
Proof.
  apply (train_no_host stored always_writable sample_mx sample_fs
           100 10 0 1 ["train"] ["test"] ["model"] "algo-1"
           sample_label_array sample_label_array
           sample_image_array sample_image_array []
           sample_train_loads sample_test_loads).
Defined.

(** ** More on the request hook *)

(** X13: when the payload cannot be deserialized ([np.load] raises, or
    the conversion to an mxnet array does), [transform_fn] raises that
    error after the log entry and the load: no forward pass runs and the
    state of the model handle is the one it started from. *)
Theorem transform_fn_bad_payload (mx : MXNet) (payload : list byte)
  (output_content_type : string) (s : serving mx) (e : exn) :
  np_load mx payload = Raise e
  \/ (exists npy, np_load mx payload = Ok npy /\ nd_array mx npy = Raise e) ->
  transform_fn mx payload "application/x-npy" output_content_type s =
    (Raise e,
     mk_serving mx (handle mx s)
       (calls mx s ++ [SvLogInfo mx "Invoking user-defined transform_fn";
                       SvNpLoad mx payload])).
Proof.
  intros Hbad.
  unfold transform_fn, bind, lift, called, modify, raise.
  cbn [String.eqb Ascii.eqb Bool.eqb negb handle calls].
  rewrite <- app_assoc. cbn [app].
  destruct Hbad as [Hload | [npy [Hload Harr]]]; rewrite Hload;
    [reflexivity |]. rewrite Harr. reflexivity.
Qed.

Lemma transform_fn_bad_payload_witness :
  transform_fn picky_mx [] "application/x-npy" "text/csv"
    (mk_serving picky_mx 5%nat []) =
    (Raise (ValueError "cannot load an empty payload"),
     mk_serving picky_mx 5%nat
       [SvLogInfo picky_mx "Invoking user-defined transform_fn";
        SvNpLoad picky_mx []]).
Proof.
  apply (transform_fn_bad_payload picky_mx [] "text/csv"
           (mk_serving picky_mx 5%nat [])).
  left. reflexivity.
Defined.

(** X14: once the payload is deserialized and the forward pass has run,
    the model handle holds the state left by that pass and the calls are
    the log entry, the load, one forward pass and the reading of the
    outputs, whatever the outcome of the post-processing; a module with
    no output makes the request fail with an index error after the
    pass. *)
Theorem transform_fn_forward_once (mx : MXNet) (payload : list byte)
  (output_content_type : string) (s s' : serving mx)
  (npy arr : tensor mx) (m' : module mx) (r : result (string * string)) :
  np_load mx payload = Ok npy ->
  nd_array mx npy = Ok arr ->
  Module_forward mx (handle mx s) arr = Ok m' ->
  transform_fn mx payload "application/x-npy" output_content_type s = (r, s') ->
  handle mx s' = m'
  /\ calls mx s' =
       calls mx s ++ [SvLogInfo mx "Invoking user-defined transform_fn";
                      SvNpLoad mx payload; SvForward mx arr; SvGetOutputs mx]
  /\ (Module_get_outputs mx m' = Ok [] ->
      r = Raise (IndexError "list index out of range")).
Proof.
  intros Hload Harr Hfwd.
  unfold transform_fn, forward, get_outputs, bind, lift, called, modify,
    raise, ret, get.
  cbn [String.eqb Ascii.eqb Bool.eqb negb handle calls].
  rewrite Hload, Harr. cbn [handle calls]. rewrite Hfwd. cbn [handle calls].
  rewrite <- !app_assoc. cbn [app].
  destruct (Module_get_outputs mx m') as [outs|] eqn:Eouts.
  - destruct outs as [|out outs]; cbn [first_item].
    + intros [= <- <-]. cbn [handle calls]. auto.
    + destruct (np_max mx (np_squeeze mx out)); intros [= <- <-];
        cbn [handle calls]; (split; [reflexivity |]);
        (split; [reflexivity | discriminate]).
  - intros [= <- <-]. cbn [handle calls].
    split; [reflexivity |]. split; [reflexivity | discriminate].
Qed.

Lemma transform_fn_forward_once_witness :
  transform_fn picky_mx [x01] "application/x-npy" "text/csv"
    (mk_serving picky_mx 5%nat []) =
    (Raise (IndexError "list index out of range"),
     mk_serving picky_mx 6%nat
       [SvLogInfo picky_mx "Invoking user-defined transform_fn";
        SvNpLoad picky_mx [x01]; SvForward picky_mx [1];
        SvGetOutputs picky_mx]).
Proof.
  destruct (transform_fn_forward_once picky_mx [x01] "text/csv"
              (mk_serving picky_mx 5%nat [])
              (snd (transform_fn picky_mx [x01] "application/x-npy" "text/csv"
                      (mk_serving picky_mx 5%nat [])))
              [1] [1] 6%nat
              (fst (transform_fn picky_mx [x01] "application/x-npy" "text/csv"
                      (mk_serving picky_mx 5%nat [])))
              eq_refl eq_refl eq_refl eq_refl) as [_ [_ Hr]].
  specialize (Hr eq_refl). reflexivity.
Defined.

(** ** Start-up *)

(** X15: [parse_args] reads the five environment variables before it
    looks at the command line: when one of them is unset it raises the
    key error of the first unset one, whatever the arguments given; and
    when all are set but the host list is not JSON it raises the decoding
    error, whatever the arguments given. *)
Theorem parse_args_needs_environment (J : Type)
  (json_loads : string -> option J) (namespace : Type)
  (ArgumentParser_parse_args :
     list (argument J) -> list string -> startup namespace)
  (environ : string -> option string) :
  (forall missing,
      find (unset environ) required_variables = Some missing ->
      forall argv,
        parse_args J json_loads namespace ArgumentParser_parse_args
          environ argv = Aborted (KeyError missing))
  /\ (forall hosts_doc,
        find (unset environ) required_variables = None ->
        environ "SM_HOSTS" = Some hosts_doc ->
        json_loads hosts_doc = None ->
        forall argv,
          parse_args J json_loads namespace ArgumentParser_parse_args
            environ argv = Aborted (JSONDecodeError hosts_doc)).
Proof.
  unfold parse_args, environ_get, required_variables, unset.
  cbn [find].
  split.
  - intros missing Hfind argv. revert Hfind.
    destruct (environ "SM_MODEL_DIR"); [| intros [= <-]; reflexivity].
    destruct (environ "SM_CHANNEL_TRAIN"); [| intros [= <-]; reflexivity].
    destruct (environ "SM_CHANNEL_TEST"); [| intros [= <-]; reflexivity].
    destruct (environ "SM_CURRENT_HOST"); [| intros [= <-]; reflexivity].
    destruct (environ "SM_HOSTS"); [discriminate | intros [= <-]; reflexivity].
  - intros hosts_doc Hfind Hhosts Hjson argv. revert Hfind.
    destruct (environ "SM_MODEL_DIR"); [| discriminate].
    destruct (environ "SM_CHANNEL_TRAIN"); [| discriminate].
    destruct (environ "SM_CHANNEL_TEST"); [| discriminate].
    destruct (environ "SM_CURRENT_HOST"); [| discriminate].
    rewrite Hhosts. intros _. cbn [sbind]. rewrite Hjson. reflexivity.
Qed.

Lemma parse_args_needs_environment_witness :
  (forall argv,
      parse_args unit (fun _ => None) unit (fun _ _ => Started tt)
        model_dir_only argv = Aborted (KeyError "SM_CHANNEL_TRAIN"))
  /\ (forall argv,
        parse_args unit (fun _ => None) unit (fun _ _ => Started tt)
          bad_hosts_environ argv = Aborted (JSONDecodeError "algo-1,algo-2")).
Proof.
  split.
  - apply (proj1 (parse_args_needs_environment unit (fun _ => None) unit
                    (fun _ _ => Started tt) model_dir_only)).
    reflexivity.
  - apply (proj2 (parse_args_needs_environment unit (fun _ => None) unit
                    (fun _ _ => Started tt) bad_hosts_environ)
             "algo-1,algo-2"); reflexivity.
Defined.
